(** * JupyterMC XBlock: the launch-parameter composer and the LTI 1.1
      launch handler of [jupytermcxblock/xblock.py]

    The Python class [JupyterMCXBlock] is embedded member by member, each
    member as its text reads.  Python [str] values are carried as their
    UTF-8 byte strings (Rocq [string]); that is the form
    [urllib.parse.quote_plus] works on, and [os.path.basename],
    [str.strip] and [==] agree on it.

    Library code the class calls but does not contain enters in two ways.
    What the inherited [LtiConsumerXBlock] members and the host runtime
    answer for one instance is a field of the instance record; the calls
    the handler guards, or leaves unguarded on purpose, answer with a
    [result], a value or a raised exception.  [urlparse], the template
    loader and the request builder's signing step are variables of the
    sections that use them.  [urlparse(...).path] is taken as a total
    function: a hub URL on which [urlparse] raises is malformed
    configuration, which the class does not handle. *)

From Stdlib Require Import String Ascii List Bool ZArith Lia.
From stdpp Require Import base gmap strings list fin_maps.

Local Open Scope Z_scope.

(** ** Python string primitives used by the module *)

Module PyStr.

(** [c in s] for a one-character [c]. *)
Fixpoint contains (c : ascii) (s : string) : bool :=
  match s with
  | EmptyString => false
  | String a s' => Ascii.eqb a c || contains c s'
  end.

(** [len(s)], as an integer. *)
Fixpoint len (s : string) : Z :=
  match s with
  | EmptyString => 0
  | String _ s' => 1 + len s'
  end.

(** [s.rfind(c)]: index of the last occurrence of [c], or [-1]. *)
Fixpoint rfind (c : ascii) (s : string) : Z :=
  match s with
  | EmptyString => -1
  | String a s' =>
      let r := rfind c s' in
      if 0 <=? r then 1 + r
      else if Ascii.eqb a c then 0 else -1
  end.

(** [s[i:]] for [0 <= i]. *)
Fixpoint drop (n : nat) (s : string) : string :=
  match n, s with
  | O, _ => s
  | S _, EmptyString => EmptyString
  | S n', String _ s' => drop n' s'
  end.

Definition slice_from (i : Z) (s : string) : string := drop (Z.to_nat i) s.

(** [s.lstrip(c)], [s.rstrip(c)], [s.strip(c)] for a one-character set. *)
Fixpoint lstrip (c : ascii) (s : string) : string :=
  match s with
  | EmptyString => EmptyString
  | String a s' => if Ascii.eqb a c then lstrip c s' else s
  end.

Fixpoint rstrip (c : ascii) (s : string) : string :=
  match s with
  | EmptyString => EmptyString
  | String a s' =>
      match rstrip c s' with
      | EmptyString => if Ascii.eqb a c then EmptyString else String a EmptyString
      | r => String a r
      end
  end.

Definition strip (c : ascii) (s : string) : string := rstrip c (lstrip c s).

(** [s.replace(a, b)] for one-character [a] and [b]. *)
Fixpoint replace (a b : ascii) (s : string) : string :=
  match s with
  | EmptyString => EmptyString
  | String x s' => String (if Ascii.eqb x a then b else x) (replace a b s')
  end.

(** [sep.join(l)]. *)
Fixpoint join (sep : string) (l : list string) : string :=
  match l with
  | [] => ""
  | [x] => x
  | x :: l' => x +:+ sep +:+ join sep l'
  end.

(** [s.split(c)]: always at least one piece. *)
Fixpoint split (c : ascii) (s : string) : list string :=
  match s with
  | EmptyString => [""]
  | String a s' =>
      if Ascii.eqb a c then "" :: split c s'
      else match split c s' with
           | [] => [String a ""]
           | p :: ps => String a p :: ps
           end
  end.

(** [s.partition(c)] without the separator: the text before the first
    [c] and the text after it ([""] when [c] does not occur). *)
Fixpoint partition (c : ascii) (s : string) : string * string :=
  match s with
  | EmptyString => ("", "")
  | String a s' =>
      if Ascii.eqb a c then ("", s')
      else let '(h, t) := partition c s' in (String a h, t)
  end.

End PyStr.

(** [os.path.basename] (posixpath):
    [i = p.rfind('/') + 1; return p[i:]]. *)
Definition basename (p : string) : string :=
  let i := PyStr.rfind "/" p + 1 in
  PyStr.slice_from i p.

(** ** Python dicts *)

(** A dict whose iteration order matters ([urlencode] walks it) is an
    association list in insertion order; [d[k] = v] replaces the value in
    place when [k] is present and appends otherwise. *)
Definition odict := list (string * string).

Fixpoint odict_set (k v : string) (d : odict) : odict :=
  match d with
  | [] => [(k, v)]
  | (k', v') :: d' =>
      if String.eqb k' k then (k, v) :: d' else (k', v') :: odict_set k v d'
  end.

Fixpoint odict_get (k : string) (d : odict) : option string :=
  match d with
  | [] => None
  | (k', v') :: d' => if String.eqb k' k then Some v' else odict_get k d'
  end.

(** [d.get(k, dflt)] on an unordered dict. *)
Definition dict_get (d : gmap string string) (k dflt : string) : string :=
  default dflt (d !! k).

(** ** Module-level names *)

(** [LTI_1P1_ROLE_MAP] (source lines 14-18). *)
Definition LTI_1P1_ROLE_MAP : gmap string string :=
  <["instructor" := "Instructor"]>
  (<["staff" := "Administrator"]>
  (<["student" := "Student,Learner"]> ∅)).

(** The conversion applied in [lti_launch_handler] (source line 186):
    [role = LTI_1P1_ROLE_MAP.get(role, 'Student,Learner')]. *)
Definition lti_1p1_role (role : string) : string :=
  dict_get LTI_1P1_ROLE_MAP role "Student,Learner".

(** ** Exceptions and outcomes *)

(** The exception classes the handler can meet.  All of them derive from
    Python's [Exception]; [LtiError] is the kind the base integration
    declares for identity-extraction failures. *)
Inductive exn : Type :=
| LtiError (msg : string)
| NameError (name : string)
| ValueError (msg : string)
| KeyError (key : string).

Definition is_LtiError (e : exn) : bool :=
  match e with LtiError _ => true | _ => false end.

(** [except Exception] catches every class above. *)
Definition is_Exception (e : exn) : bool := true.

(** [str(err)], what a template prints for an exception object. *)
Definition exn_str (e : exn) : string :=
  match e with
  | LtiError msg => msg
  | NameError name => "name '" +:+ name +:+ "' is not defined"
  | ValueError msg => msg
  | KeyError key => "'" +:+ key +:+ "'"
  end.

(** The outcome of a call: a value, or a raised exception. *)
Inductive result (A : Type) : Type :=
| Ok (a : A)
| Raise (e : exn).
Arguments Ok {A} a.
Arguments Raise {A} e.

(** ** The XBlock instance *)

(** [extract_real_user_data()] returns a dict; the handler reads two of its
    keys, each [None] or a string. *)
Record RealUserData := {
  user_username : option string;
  user_language : option string;
}.

(** A registered parameter processor: a callable that may carry an
    [lti_xblock_default_params] attribute, and whose call on the block
    returns a dict, returns [None], or raises. *)
Record Processor := {
  processor_repr : string;
  lti_xblock_default_params : option (gmap string string);
  processor_call : result (option (gmap string string));
}.

(** Values a template context holds. *)
Inductive ctx_value : Type :=
| CtxStr (s : string)
| CtxErr (e : exn)
| CtxParams (p : gmap string string).

(** One [JupyterMCXBlock] instance: its declared fields (source lines
    26-94), and what the inherited [LtiConsumerXBlock] members and the
    host runtime answer for it. *)
Record JupyterMCXBlock := {
  (* declared fields *)
  display_name : string;
  urlbasepath : string;
  nb_git_repo : string;
  nb_git_branch : string;
  nb_git_file : string;
  lti_id : string;
  hub_url : string;
  (* inherited properties, as [super()] answers them *)
  super_launch_target : string;
  super_lti_version : string;
  super_prefixed_custom_parameters : gmap string string;
  (* inherited members read by the launch handler *)
  extract_real_user_data : result RealUserData;
  get_lti_1p1_user_id : result string;
  role : result string;
  lis_result_sourcedid : result string;
  context_id : string;
  course_display_name_with_default : string;
  course_display_org_with_default : string;
  has_score : bool;
  outcome_service_url : string;
  resource_link_id : string;
  get_parameter_processors : list Processor;
  _get_context_for_template : gmap string ctx_value;
}.

(** ** Overridden properties (source lines 109-157) *)

(** [launch_url]: [f"{self.hub_url}/hub/lti/launch"]. *)
Definition launch_url (self : JupyterMCXBlock) : string :=
  hub_url self +:+ "/hub/lti/launch".

(** The literal list tested by [launch_target] (source line 117). *)
Definition new_window_interfaces : list string :=
  ["rstudio"; "openrefine"; "Desktop"; "code-server"].

Definition launch_target (self : JupyterMCXBlock) : string :=
  if decide (urlbasepath self ∈ new_window_interfaces) then "new_window"
  else super_launch_target self.

Definition lti_version (self : JupyterMCXBlock) : string := "lti_1p1".

(** The literal list tested by [prefixed_custom_parameters] (source line
    145). *)
Definition no_document_interfaces : list string :=
  ["terminals/1"; "rstudio"; "openrefine"; "Desktop"; "code-server"].

(** [next_query_params] as it stands when it is logged and encoded (source
    lines 138-146). *)
Definition next_query_params (self : JupyterMCXBlock) : odict :=
  let next_query_params :=
    [ ("repo", nb_git_repo self);
      ("branch", nb_git_branch self);
      ("urlpath",
        urlbasepath self +:+ "/" +:+ basename (nb_git_repo self)
                    +:+ "/" +:+ nb_git_file self) ] in
  if decide (urlbasepath self ∈ no_document_interfaces)
  then odict_set "urlpath" (urlbasepath self) next_query_params
  else next_query_params.

(** [next_query_params["urlpath"]]; the key is always present. *)
Definition urlpath (self : JupyterMCXBlock) : string :=
  default "" (odict_get "urlpath" (next_query_params self)).

(** ** [urllib.parse] quoting *)

Module Urllib.

(** [_ALWAYS_SAFE]: the bytes [quote] never escapes. *)
Definition ALWAYS_SAFE : string :=
  "ABCDEFGHIJKLMNOPQRSTUVWXYZabcdefghijklmnopqrstuvwxyz0123456789_.-~".

Definition hex_digit (n : N) : ascii :=
  match String.get (N.to_nat n) "0123456789ABCDEF" with
  | Some d => d
  | None => "0"%char
  end.

(** ['%{:02X}'.format(byte)]. *)
Definition percent_byte (c : ascii) : string :=
  let n := N_of_ascii c in
  String "%" (String (hex_digit (n / 16)) (String (hex_digit (n mod 16)) "")).

Definition quote_byte (safe : string) (c : ascii) : string :=
  if PyStr.contains c ALWAYS_SAFE || PyStr.contains c safe
  then String c ""
  else percent_byte c.

(** [quote(s, safe)] on the UTF-8 bytes of [s]. *)
Fixpoint quote (safe : string) (s : string) : string :=
  match s with
  | EmptyString => ""
  | String c s' => quote_byte safe c +:+ quote safe s'
  end.

(** [quote_plus(s)]: [quote] with nothing extra safe when [s] has no
    space; otherwise spaces are kept by [quote] and then turned into
    ['+']. *)
Definition quote_plus (s : string) : string :=
  if PyStr.contains " " s
  then PyStr.replace " " "+" (quote " " s)
  else quote "" s.

(** [urlencode(query)] for a dict of strings: [k=v] pairs, both sides
    through [quote_plus], joined by ['&'] in iteration order. *)
Definition urlencode (query : odict) : string :=
  PyStr.join "&"
    (map (fun kv => quote_plus (fst kv) +:+ "=" +:+ quote_plus (snd kv)) query).

(** The reading side, against which the encoded query string is
    checked: [unquote], [unquote_plus], and the splitting of a query
    string into its pairs ([parse_qsl] keeping blank values). *)
Definition hex_value (c : ascii) : option N :=
  let n := N_of_ascii c in
  if (48 <=? n)%N && (n <=? 57)%N then Some (n - 48)%N
  else if (65 <=? n)%N && (n <=? 70)%N then Some (n - 55)%N
  else if (97 <=? n)%N && (n <=? 102)%N then Some (n - 87)%N
  else None.

Definition unhex (h l : ascii) : option ascii :=
  match hex_value h, hex_value l with
  | Some a, Some b => Some (ascii_of_N (16 * a + b))
  | _, _ => None
  end.

Fixpoint unquote (s : string) : string :=
  match s with
  | EmptyString => ""
  | String c s1 =>
      if Ascii.eqb c "%" then
        match s1 with
        | String h (String l rest) =>
            match unhex h l with
            | Some b => String b (unquote rest)
            | None => String c (unquote s1)
            end
        | _ => String c (unquote s1)
        end
      else String c (unquote s1)
  end.

Definition unquote_plus (s : string) : string :=
  unquote (PyStr.replace "+" " " s).

Definition parse_qsl (qs : string) : odict :=
  flat_map
    (fun name_value =>
       if String.eqb name_value "" then []
       else let '(name, value) := PyStr.partition "=" name_value in
            [(unquote_plus name, unquote_plus value)])
    (PyStr.split "&" qs).

End Urllib.

(** ** The LTI 1.1 request builder and the handler's world *)

(** What [set_user_data] stores. *)
Record UserData := {
  ud_user_id : string;
  ud_roles : string;
  ud_result_sourcedid : string;
  ud_person_sourcedid : option string;
  ud_person_contact_email_primary : option string;
  ud_person_name_full : option string;
}.

(** The delegate returned by [self._get_lti_consumer()]: the values its
    setters have been handed so far. *)
Record LtiConsumer1p1 := {
  lti_launch_url : string;
  lti_user_data : option UserData;
  lti_context_data : option (string * string * string);
  lti_outcome_service_url : option string;
  lti_launch_presentation_locale : option string;
  lti_custom_parameters : gmap string string;
  lti_extra_claims : gmap string string;
}.

Definition with_user_data (ud : UserData) (c : LtiConsumer1p1) :=
  {| lti_launch_url := lti_launch_url c;
     lti_user_data := Some ud;
     lti_context_data := lti_context_data c;
     lti_outcome_service_url := lti_outcome_service_url c;
     lti_launch_presentation_locale := lti_launch_presentation_locale c;
     lti_custom_parameters := lti_custom_parameters c;
     lti_extra_claims := lti_extra_claims c |}.

Definition with_context_data (cd : string * string * string) (c : LtiConsumer1p1) :=
  {| lti_launch_url := lti_launch_url c;
     lti_user_data := lti_user_data c;
     lti_context_data := Some cd;
     lti_outcome_service_url := lti_outcome_service_url c;
     lti_launch_presentation_locale := lti_launch_presentation_locale c;
     lti_custom_parameters := lti_custom_parameters c;
     lti_extra_claims := lti_extra_claims c |}.

Definition with_outcome_service_url (u : string) (c : LtiConsumer1p1) :=
  {| lti_launch_url := lti_launch_url c;
     lti_user_data := lti_user_data c;
     lti_context_data := lti_context_data c;
     lti_outcome_service_url := Some u;
     lti_launch_presentation_locale := lti_launch_presentation_locale c;
     lti_custom_parameters := lti_custom_parameters c;
     lti_extra_claims := lti_extra_claims c |}.

Definition with_launch_presentation_locale (l : string) (c : LtiConsumer1p1) :=
  {| lti_launch_url := lti_launch_url c;
     lti_user_data := lti_user_data c;
     lti_context_data := lti_context_data c;
     lti_outcome_service_url := lti_outcome_service_url c;
     lti_launch_presentation_locale := Some l;
     lti_custom_parameters := lti_custom_parameters c;
     lti_extra_claims := lti_extra_claims c |}.

Definition with_custom_parameters (p : gmap string string) (c : LtiConsumer1p1) :=
  {| lti_launch_url := lti_launch_url c;
     lti_user_data := lti_user_data c;
     lti_context_data := lti_context_data c;
     lti_outcome_service_url := lti_outcome_service_url c;
     lti_launch_presentation_locale := lti_launch_presentation_locale c;
     lti_custom_parameters := p;
     lti_extra_claims := lti_extra_claims c |}.

(** [extra_claims.update(claim)]: the new keys win. *)
Definition with_extra_claims (claim : gmap string string) (c : LtiConsumer1p1) :=
  {| lti_launch_url := lti_launch_url c;
     lti_user_data := lti_user_data c;
     lti_context_data := lti_context_data c;
     lti_outcome_service_url := lti_outcome_service_url c;
     lti_launch_presentation_locale := lti_launch_presentation_locale c;
     lti_custom_parameters := lti_custom_parameters c;
     lti_extra_claims := claim ∪ lti_extra_claims c |}.

(** A [webob.Response]; its status defaults to 200. *)
Record Response := {
  body : string;
  status : Z;
  content_type : string;
}.

(** The payload of the ['xblock.launch_request'] tracking event. *)
Record LaunchEvent := {
  ev_lti_version : option string;
  ev_user_roles : option string;
  ev_launch_url : string;
}.

(** Everything one run of the handler can change: the request builder it
    fills in, the log records written, the tracking events emitted. *)
Record World := {
  lti_consumer : LtiConsumer1p1;
  log_records : list (string * string);
  tracked_events : list (string * LaunchEvent);
}.

(** ** Name resolution *)

(** The names bound at module level by source lines 1-24. *)
Definition module_globals : list string :=
  [ "__name__"; "__doc__"; "__file__"; "__builtins__";
    "logging"; "os"; "urllib"; "settings";
    "LtiConsumerXBlock"; "LtiError"; "track_event"; "_";
    "Response"; "Scope"; "String"; "XBlock"; "ResourceLoader";
    "LTI_1P1_ROLE_MAP"; "logger"; "JupyterMCXBlock" ].

(** Python's built-in namespace. *)
Definition builtins : list string :=
  [ "abs"; "all"; "any"; "ascii"; "bin"; "bool"; "breakpoint"; "bytearray";
    "bytes"; "callable"; "chr"; "classmethod"; "compile"; "complex";
    "delattr"; "dict"; "dir"; "divmod"; "enumerate"; "eval"; "exec";
    "filter"; "float"; "format"; "frozenset"; "getattr"; "globals";
    "hasattr"; "hash"; "help"; "hex"; "id"; "input"; "int"; "isinstance";
    "issubclass"; "iter"; "len"; "list"; "locals"; "map"; "max";
    "memoryview"; "min"; "next"; "object"; "oct"; "open"; "ord"; "pow";
    "print"; "property"; "range"; "repr"; "reversed"; "round"; "set";
    "setattr"; "slice"; "sorted"; "staticmethod"; "str"; "sum"; "super";
    "tuple"; "type"; "vars"; "zip"; "__import__";
    "None"; "True"; "False"; "Ellipsis"; "NotImplemented"; "__debug__";
    "copyright"; "credits"; "license"; "exit"; "quit";
    "BaseException"; "Exception"; "ArithmeticError"; "AssertionError";
    "AttributeError"; "BlockingIOError"; "BrokenPipeError"; "BufferError";
    "BytesWarning"; "ChildProcessError"; "ConnectionAbortedError";
    "ConnectionError"; "ConnectionRefusedError"; "ConnectionResetError";
    "DeprecationWarning"; "EOFError"; "EnvironmentError";
    "FileExistsError"; "FileNotFoundError"; "FloatingPointError";
    "FutureWarning"; "GeneratorExit"; "IOError"; "ImportError";
    "ImportWarning"; "IndentationError"; "IndexError"; "InterruptedError";
    "IsADirectoryError"; "KeyError"; "KeyboardInterrupt"; "LookupError";
    "MemoryError"; "ModuleNotFoundError"; "NameError";
    "NotADirectoryError"; "NotImplementedError"; "OSError";
    "OverflowError"; "PendingDeprecationWarning"; "PermissionError";
    "ProcessLookupError"; "RecursionError"; "ReferenceError";
    "ResourceWarning"; "RuntimeError"; "RuntimeWarning";
    "StopAsyncIteration"; "StopIteration"; "SyntaxError"; "SyntaxWarning";
    "SystemError"; "SystemExit"; "TabError"; "TimeoutError"; "TypeError";
    "UnboundLocalError"; "UnicodeDecodeError"; "UnicodeEncodeError";
    "UnicodeError"; "UnicodeTranslateError"; "UnicodeWarning";
    "UserWarning"; "ValueError"; "Warning"; "ZeroDivisionError" ].

(** ** The handler monad: state with exceptions *)

(** A raised exception keeps the state reached so far, as in Python. *)
Definition M (A : Type) : Type := World -> result A * World.

Global Instance M_ret : MRet M := fun A a w => (Ok a, w).

Global Instance M_bind : MBind M := fun A B f m w =>
  match m w with
  | (Ok a, w') => f a w'
  | (Raise e, w') => (Raise e, w')
  end.

(** A call whose outcome the instance record gives. *)
Definition call {A} (r : result A) : M A := fun w => (r, w).

Definition raise {A} (e : exn) : M A := fun w => (Raise e, w).

(** Reading a global name inside a function body: the module's globals,
    then the builtins, else [NameError]. *)
Definition load_global (name : string) : M unit :=
  if decide (name ∈ module_globals ++ builtins) then mret tt
  else raise (NameError name).

(** [try: body / except <classes>: handler]. *)
Definition try_except {A} (body : M A) (catches : exn -> bool)
    (handler : exn -> M A) : M A := fun w =>
  match body w with
  | (Raise e, w') => if catches e then handler e w' else (Raise e, w')
  | ok => ok
  end.

Fixpoint for_each {A} (l : list A) (loop_body : A -> M unit) : M unit :=
  match l with
  | [] => mret tt
  | x :: l' => loop_body x;; for_each l' loop_body
  end.

Definition when (b : bool) (m : M unit) : M unit := if b then m else mret tt.

Definition get_consumer : M LtiConsumer1p1 := fun w => (Ok (lti_consumer w), w).

Definition update_consumer (f : LtiConsumer1p1 -> LtiConsumer1p1) : M unit :=
  fun w => (Ok tt, {| lti_consumer := f (lti_consumer w);
                      log_records := log_records w;
                      tracked_events := tracked_events w |}).

(** A record handed to the logging system, with its level. *)
Definition emit_log (level msg : string) : M unit :=
  fun w => (Ok tt, {| lti_consumer := lti_consumer w;
                      log_records := log_records w ++ [(level, msg)];
                      tracked_events := tracked_events w |}).

Definition track_event (name : string) (ev : LaunchEvent) : M unit :=
  fun w => (Ok tt, {| lti_consumer := lti_consumer w;
                      log_records := log_records w;
                      tracked_events := tracked_events w ++ [(name, ev)] |}).

(** Python truthiness of a value that is [None] or a string. *)
Definition truthy (v : option string) : bool :=
  match v with
  | Some s => negb (String.eqb s "")
  | None => false
  end.

Definition dquote : string := String (ascii_of_nat 34) "".

(** ** The class members that call library code *)

Section Block.

(** [urllib.parse.urlparse(url).path]: the path component of a URL. *)
Variable urlparse_path : string -> string.

(** [lti_consumer.generate_launch_request(resource_link_id)]: the signed
    launch parameters built from what the delegate holds, or the
    exception the builder raises. *)
Variable generate_launch_request :
  LtiConsumer1p1 -> string -> result (gmap string string).

(** [ResourceLoader(__name__).render_django_template(path, context)]. *)
Variable render_django_template : string -> gmap string ctx_value -> string.

(** [hub_url_base_path] (source lines 127-130). *)
Definition hub_url_base_path (self : JupyterMCXBlock) : string :=
  let path := urlparse_path (hub_url self) in
  PyStr.strip "/" path.

(** [next_url] (source line 154). *)
Definition next_url (self : JupyterMCXBlock) : string :=
  hub_url_base_path self +:+ "/hub/user-redirect/git-pull?"
    +:+ Urllib.urlencode (next_query_params self).

(** The value [prefixed_custom_parameters] returns (source lines
    132-157): the inherited dict with
    [custom_parameters["next"] = next_url]. *)
Definition prefixed_custom_parameters (self : JupyterMCXBlock)
  : gmap string string :=
  let custom_parameters := super_prefixed_custom_parameters self in
  <["next" := next_url self]> custom_parameters.

(** The [logger.info] record of source lines 148-153, ['%s'] filled in. *)
Definition fetching_log_record (self : JupyterMCXBlock) : string :=
  "Fetching git repo=" +:+ default "" (odict_get "repo" (next_query_params self))
  +:+ ", branch=" +:+ default "" (odict_get "branch" (next_query_params self))
  +:+ ", urlpath=" +:+ default "" (odict_get "urlpath" (next_query_params self)).

(** Reading the property inside the handler: the log record, then the
    value. *)
Definition read_prefixed_custom_parameters (self : JupyterMCXBlock)
  : M (gmap string string) :=
  load_global "logger";;
  emit_log "INFO" (fetching_log_record self);;
  mret (prefixed_custom_parameters self).

(** [self._get_lti_consumer()]: a fresh builder aimed at [launch_url]. *)
Definition _get_lti_consumer (self : JupyterMCXBlock) : LtiConsumer1p1 :=
  {| lti_launch_url := launch_url self;
     lti_user_data := None;
     lti_context_data := None;
     lti_outcome_service_url := None;
     lti_launch_presentation_locale := None;
     lti_custom_parameters := ∅;
     lti_extra_claims := ∅ |}.

(** The [try] block of source lines 181-188. *)
Definition extract_identity (self : JupyterMCXBlock)
  : M (RealUserData * string * string * string) :=
  real_user_data ← call (extract_real_user_data self);
  user_id ← call (get_lti_1p1_user_id self);
  role ← call (role self);
  load_global "LTI_1P1_ROLE_MAP";;
  let role := dict_get LTI_1P1_ROLE_MAP role "Student,Learner" in
  result_sourcedid ← call (lis_result_sourcedid self);
  mret (real_user_data, user_id, role, result_sourcedid).

(** The [except LtiError as err] block of source lines 190-194. *)
Definition launch_error_response (err : exn) : M Response :=
  load_global "ResourceLoader";;
  let template :=
    render_django_template "/templates/html/lti_launch_error.html"
      {[ "error_msg" := CtxErr err ]} in
  load_global "Response";;
  mret {| body := template; status := 400; content_type := "text/html" |}.

(** One turn of the loop of source lines 227-235. *)
Definition apply_processor (processor : Processor) : M unit :=
  try_except
    (let default_params := default ∅ (lti_xblock_default_params processor) in
     update_consumer (with_extra_claims default_params);;
     claims ← call (processor_call processor);
     update_consumer (with_extra_claims (default ∅ claims)))
    is_Exception
    (fun _ =>
       load_global "log";;
       emit_log "ERROR"
         ("Error in XBlock LTI parameter processor " +:+ dquote
            +:+ processor_repr processor +:+ dquote)).

(** Source lines 196-225: the extracted identity, the course context
    and the custom parameters are handed to the request builder. *)
Definition populate_consumer (self : JupyterMCXBlock)
    (identity : RealUserData * string * string * string) : M unit :=
  let '(real_user_data, user_id, role, result_sourcedid) := identity in
  let username :=
    if truthy (user_username real_user_data)
    then user_username real_user_data else None in
  let full_name : option string := None in
  let email : option string := None in
  update_consumer (with_user_data
    {| ud_user_id := user_id;
       ud_roles := role;
       ud_result_sourcedid := result_sourcedid;
       ud_person_sourcedid := username;
       ud_person_contact_email_primary := email;
       ud_person_name_full := full_name |});;
  update_consumer (with_context_data
    (context_id self,
     course_display_name_with_default self,
     course_display_org_with_default self));;
  when (has_score self)
    (update_consumer (with_outcome_service_url (outcome_service_url self)));;
  when (truthy (user_language real_user_data))
    (update_consumer (with_launch_presentation_locale
       (default "" (user_language real_user_data))));;
  custom_parameters ← read_prefixed_custom_parameters self;
  update_consumer (with_custom_parameters custom_parameters).

(** Source lines 227-235: every registered processor in turn. *)
Definition apply_processors (self : JupyterMCXBlock) : M unit :=
  for_each (get_parameter_processors self) apply_processor.

(** Source lines 237-251: the signed parameters, the tracking event and
    the rendered form. *)
Definition render_launch_form (self : JupyterMCXBlock) : M Response :=
  consumer ← get_consumer;
  lti_parameters ← call (generate_launch_request consumer (resource_link_id self));
  let event :=
    {| ev_lti_version := lti_parameters !! "lti_version";
       ev_user_roles := lti_parameters !! "roles";
       ev_launch_url := lti_launch_url consumer |} in
  load_global "track_event";;
  track_event "xblock.launch_request" event;;
  load_global "ResourceLoader";;
  let context := _get_context_for_template self in
  let context := <["lti_parameters" := CtxParams lti_parameters]> context in
  let template :=
    render_django_template "/templates/html/lti_launch.html" context in
  load_global "Response";;
  mret {| body := template; status := 200; content_type := "text/html" |}.

(** Source lines 196-251: the path taken once identity extraction has
    returned. *)
Definition launch_form_response (self : JupyterMCXBlock)
    (identity : RealUserData * string * string * string) : M Response :=
  populate_consumer self identity;;
  apply_processors self;;
  render_launch_form self.

(** [lti_launch_handler] (source lines 159-251).  The [except] branch
    returns from the function, so the [try] yields either the extracted
    identity or the response to return. *)
Definition lti_launch_handler (self : JupyterMCXBlock) : M Response :=
  update_consumer (fun _ => _get_lti_consumer self);;
  outcome ← try_except
    (identity ← extract_identity self; mret (inl identity))
    is_LtiError
    (fun err => response ← launch_error_response err; mret (inr response));
  match outcome with
  | inr response => mret response
  | inl identity => launch_form_response self identity
  end.

End Block.

(** ** The option list of the interface selector (source lines 40-48) *)

(** One entry of [values=[...]]: a dict display with the two keys
    ["display_name"] and ["value"]. *)
Record option_entry := {
  entry_display_name : string;
  entry_value : string;
}.

(** The tokens of a list display whose items are dict displays. *)
Inductive token : Type :=
| LSQB
| RSQB
| COMMA
| DICT (e : option_entry).

(** Python's list display: ['['], items separated by [','] with an
    optional trailing [','], then [']'].  [None] is a [SyntaxError]. *)
Fixpoint list_items (expect_item : bool) (ts : list token)
  : option (list option_entry) :=
  match ts with
  | [] => None
  | RSQB :: rest =>
      match rest with [] => Some [] | _ => None end
  | DICT e :: rest =>
      if expect_item then
        match list_items false rest with
        | Some es => Some (e :: es)
        | None => None
        end
      else None
  | COMMA :: rest => if expect_item then None else list_items true rest
  | LSQB :: _ => None
  end.

Definition list_display (ts : list token) : option (list option_entry) :=
  match ts with
  | LSQB :: rest => list_items true rest
  | _ => None
  end.

Definition entry (name value : string) : token :=
  DICT {| entry_display_name := name; entry_value := value |}.

(** The token sequence of source lines 40-48, as written. *)
Definition urlbasepath_values_tokens : list token :=
  [ LSQB;
    entry "Jupyter Notebook" "tree"; COMMA;
    entry "JupyterLab" "lab/tree"; COMMA;
    entry "RStudio" "rstudio"; COMMA;
    entry "Terminal" "terminals/1";
    entry "Desktop" "Desktop";
    entry "OpenRefine" "openrefine";
    entry "VS Code" "code-server";
    RSQB ].

(** The same seven entries with a [','] after each of the first six. *)
Definition urlbasepath_values_separated : list token :=
  [ LSQB;
    entry "Jupyter Notebook" "tree"; COMMA;
    entry "JupyterLab" "lab/tree"; COMMA;
    entry "RStudio" "rstudio"; COMMA;
    entry "Terminal" "terminals/1"; COMMA;
    entry "Desktop" "Desktop"; COMMA;
    entry "OpenRefine" "openrefine"; COMMA;
    entry "VS Code" "code-server";
    RSQB ].

(** ** Sample instances *)

(** The block with every field at its declared default, for a learner
    the platform knows. *)
Definition default_block : JupyterMCXBlock := {|
  display_name := "JupyterHub";
  urlbasepath := "lab/tree";
  nb_git_repo := "https://github.com/calculquebec/jupytermc-xblock.git";
  nb_git_branch := "main";
  nb_git_file := "static/notebooks/hello.ipynb";
  lti_id := "jupyterhub";
  hub_url := "https://hub.example.org/jupyter";
  super_launch_target := "iframe";
  super_lti_version := "lti_1p3";
  super_prefixed_custom_parameters :=
    {[ "custom_component_display_name" := "JupyterHub"; "next" := "/author" ]};
  extract_real_user_data :=
    Ok {| user_username := Some "alice"; user_language := Some "fr" |};
  get_lti_1p1_user_id := Ok "5f3a";
  role := Ok "staff";
  lis_result_sourcedid := Ok "course:link:5f3a";
  context_id := "course-v1:demo";
  course_display_name_with_default := "Demo";
  course_display_org_with_default := "CQ";
  has_score := false;
  outcome_service_url := "https://lms.example.org/outcome";
  resource_link_id := "lms.example.org-block1";
  get_parameter_processors := [];
  _get_context_for_template := ∅;
|}.

Definition with_urlbasepath (u : string) (b : JupyterMCXBlock) : JupyterMCXBlock := {|
  display_name := display_name b;
  urlbasepath := u;
  nb_git_repo := nb_git_repo b;
  nb_git_branch := nb_git_branch b;
  nb_git_file := nb_git_file b;
  lti_id := lti_id b;
  hub_url := hub_url b;
  super_launch_target := super_launch_target b;
  super_lti_version := super_lti_version b;
  super_prefixed_custom_parameters := super_prefixed_custom_parameters b;
  extract_real_user_data := extract_real_user_data b;
  get_lti_1p1_user_id := get_lti_1p1_user_id b;
  role := role b;
  lis_result_sourcedid := lis_result_sourcedid b;
  context_id := context_id b;
  course_display_name_with_default := course_display_name_with_default b;
  course_display_org_with_default := course_display_org_with_default b;
  has_score := has_score b;
  outcome_service_url := outcome_service_url b;
  resource_link_id := resource_link_id b;
  get_parameter_processors := get_parameter_processors b;
  _get_context_for_template := _get_context_for_template b;
|}.

Definition with_processors (ps : list Processor) (b : JupyterMCXBlock) : JupyterMCXBlock := {|
  display_name := display_name b;
  urlbasepath := urlbasepath b;
  nb_git_repo := nb_git_repo b;
  nb_git_branch := nb_git_branch b;
  nb_git_file := nb_git_file b;
  lti_id := lti_id b;
  hub_url := hub_url b;
  super_launch_target := super_launch_target b;
  super_lti_version := super_lti_version b;
  super_prefixed_custom_parameters := super_prefixed_custom_parameters b;
  extract_real_user_data := extract_real_user_data b;
  get_lti_1p1_user_id := get_lti_1p1_user_id b;
  role := role b;
  lis_result_sourcedid := lis_result_sourcedid b;
  context_id := context_id b;
  course_display_name_with_default := course_display_name_with_default b;
  course_display_org_with_default := course_display_org_with_default b;
  has_score := has_score b;
  outcome_service_url := outcome_service_url b;
  resource_link_id := resource_link_id b;
  get_parameter_processors := ps;
  _get_context_for_template := _get_context_for_template b;
|}.

Definition with_identity (d : result RealUserData) (b : JupyterMCXBlock) : JupyterMCXBlock := {|
  display_name := display_name b;
  urlbasepath := urlbasepath b;
  nb_git_repo := nb_git_repo b;
  nb_git_branch := nb_git_branch b;
  nb_git_file := nb_git_file b;
  lti_id := lti_id b;
  hub_url := hub_url b;
  super_launch_target := super_launch_target b;
  super_lti_version := super_lti_version b;
  super_prefixed_custom_parameters := super_prefixed_custom_parameters b;
  extract_real_user_data := d;
  get_lti_1p1_user_id := get_lti_1p1_user_id b;
  role := role b;
  lis_result_sourcedid := lis_result_sourcedid b;
  context_id := context_id b;
  course_display_name_with_default := course_display_name_with_default b;
  course_display_org_with_default := course_display_org_with_default b;
  has_score := has_score b;
  outcome_service_url := outcome_service_url b;
  resource_link_id := resource_link_id b;
  get_parameter_processors := get_parameter_processors b;
  _get_context_for_template := _get_context_for_template b;
|}.

(** A world in which nothing has happened yet. *)
Definition fresh_world : World := {|
  lti_consumer :=
    {| lti_launch_url := "";
       lti_user_data := None;
       lti_context_data := None;
       lti_outcome_service_url := None;
       lti_launch_presentation_locale := None;
       lti_custom_parameters := ∅;
       lti_extra_claims := ∅ |};
  log_records := [];
  tracked_events := [];
|}.

(** Stand-ins for the three library functions, to run the members on. *)

(** The text after [scheme://host], cut at the first ['?']: the path of an
    absolute URL without fragment. *)
Fixpoint after_slashes (n : nat) (s : string) : string :=
  match s with
  | EmptyString => ""
  | String a s' =>
      if Ascii.eqb a "/" then
        match n with
        | O => s
        | S n' => after_slashes n' s'
        end
      else after_slashes n s'
  end.

Definition sample_urlparse_path (url : string) : string :=
  fst (PyStr.partition "?" (after_slashes 2 url)).

(** A builder that answers the version, the stored role and the custom
    parameters, and refuses to sign without user data. *)
Definition sample_generate_launch_request (c : LtiConsumer1p1) (resource_link_id : string)
  : result (gmap string string) :=
  match lti_user_data c with
  | None => Raise (ValueError "Required user data isn't set.")
  | Some ud =>
      Ok (<["lti_version" := "LTI-1p0"]>
          (<["roles" := ud_roles ud]>
          (<["resource_link_id" := resource_link_id]>
          (lti_extra_claims c ∪ lti_custom_parameters c))))
  end.

(** A builder whose signing step raises. *)
Definition failing_generate_launch_request (c : LtiConsumer1p1) (resource_link_id : string)
  : result (gmap string string) :=
  Raise (ValueError "OAuth signature could not be computed").

(** How the sample launch form writes the parameters down. *)
Definition sample_serialize (p : gmap string string) : string :=
  Urllib.urlencode (map_to_list p).

(** A renderer that prints the error message on the error page and the
    serialized parameters on the launch form. *)
Definition sample_render_django_template (path : string) (context : gmap string ctx_value)
  : string :=
  if String.eqb path "/templates/html/lti_launch_error.html" then
    match context !! "error_msg" with
    | Some (CtxErr e) => "<p>" +:+ exn_str e +:+ "</p>"
    | _ => "<p></p>"
    end
  else
    match context !! "lti_parameters" with
    | Some (CtxParams p) => "<form>" +:+ sample_serialize p +:+ "</form>"
    | _ => "<form></form>"
    end.

(** A processor that raises when called. *)
Definition raising_processor : Processor := {|
  processor_repr := "<function team_info>";
  lti_xblock_default_params := Some {[ "custom_team_name" := "" ]};
  processor_call := Raise (KeyError "team");
|}.

(** A processor that returns one extra claim. *)
Definition quiet_processor : Processor := {|
  processor_repr := "<function cohort_info>";
  lti_xblock_default_params := None;
  processor_call := Ok (Some {[ "custom_cohort_name" := "A" ]});
|}.

(** ** Predicates of the statements *)

(** The two [safe] arguments [quote_plus] hands to [quote]. *)
Definition plus_safe (safe : string) : Prop := safe = "" \/ safe = " ".

(** The characters that separate a URL's parts and never come out of
    [quote]. *)
Definition delimiter (x : ascii) : Prop :=
  x = "&"%char \/ x = "="%char \/ x = "?"%char \/ x = "+"%char.

(** The world in which [lti_launch_handler] goes to work: the builder is
    fresh, the records written so far stay. *)
Definition handler_start (self : JupyterMCXBlock) (w : World) : World :=
  {| lti_consumer := _get_lti_consumer self;
     log_records := log_records w;
     tracked_events := tracked_events w |}.

(** [s] occurs in [t]. *)
Definition occurs_in (s t : string) : Prop :=
  exists before after : string, t = before +:+ s +:+ after.

(** The launch handler as the specification words it: a 400 page showing
    the message when identity extraction raises [LtiError], and a 200
    page in every other case. *)
Definition error_page_or_launch_form
    (handler : JupyterMCXBlock -> M Response)
    (self : JupyterMCXBlock) (w : World) : Prop :=
  match fst (extract_identity self w) with
  | Raise (LtiError msg) =>
      exists response, fst (handler self w) = Ok response /\
        status response = 400 /\ occurs_in msg (body response)
  | _ =>
      exists response, fst (handler self w) = Ok response /\
        status response = 200
  end.

(** What a parameter processor can change in the request builder: the
    extra claims, and nothing else. *)
Definition same_but_extra_claims (c c' : LtiConsumer1p1) : Prop :=
  lti_launch_url c' = lti_launch_url c /\
  lti_user_data c' = lti_user_data c /\
  lti_context_data c' = lti_context_data c /\
  lti_outcome_service_url c' = lti_outcome_service_url c /\
  lti_launch_presentation_locale c' = lti_launch_presentation_locale c /\
  lti_custom_parameters c' = lti_custom_parameters c.

Definition only_extra_claims (w w' : World) : Prop :=
  same_but_extra_claims (lti_consumer w) (lti_consumer w') /\
  log_records w' = log_records w /\
  tracked_events w' = tracked_events w.

(** An interface value is a "no specific document" value when the redirect
    path it produces is the value itself, whatever repository and file
    the block names. *)
Definition collapses_to_interface (u : string) : Prop :=
  forall self : JupyterMCXBlock, urlbasepath self = u -> urlpath self = u.

(** ** Class-body defaults (source lines 85-94) *)

(** Reading an attribute of [django.conf.settings]: its value, or
    [AttributeError] when the deployment does not define it. *)
Inductive attr_result : Type :=
| AttrOk (v : string)
| AttributeError (name : string).

Definition settings_attr (settings : gmap string string) (name : string)
  : attr_result :=
  match settings !! name with
  | Some v => AttrOk v
  | None => AttributeError name
  end.

(** [getattr(settings, name, dflt)]. *)
Definition getattr_default (settings : gmap string string) (name dflt : string)
  : string :=
  default dflt (settings !! name).

(** The [default=] of the [hub_url] field (source lines 88-92).  The
    third argument of [getattr] is an f-string over [settings.LMS_BASE],
    and Python evaluates it before the call. *)
Definition hub_url_default (settings : gmap string string) : attr_result :=
  match settings_attr settings "LMS_BASE" with
  | AttrOk lms_base =>
      AttrOk (getattr_default settings "LTI_DEFAULT_JUPYTER_HUB_URL"
                ("https://hub." +:+ lms_base))
  | AttributeError name => AttributeError name
  end.

(** ** Characters of a string *)

Definition first_char (s : string) : option ascii :=
  match s with
  | EmptyString => None
  | String a _ => Some a
  end.

Fixpoint last_char (s : string) : option ascii :=
  match s with
  | EmptyString => None
  | String a EmptyString => Some a
  | String _ s' => last_char s'
  end.

Fixpoint all_chars (P : ascii -> bool) (s : string) : bool :=
  match s with
  | EmptyString => true
  | String a s' => P a && all_chars P s'
  end.

(** The characters [quote_plus] can write: the always-safe ones, ['%']
    and ['+']. *)
Definition quoted_char (c : ascii) : bool :=
  PyStr.contains c Urllib.ALWAYS_SAFE || PyStr.contains c "%+".

(** The characters [urlencode] can write: those and the two separators. *)
Definition query_char (c : ascii) : bool :=
  quoted_char c || PyStr.contains c "=&".

(** ** Worlds and processors *)



(** A processor that says nothing about the claim [k], neither in its
    default params nor in what it returns. *)
Definition silent_on (k : string) (q : Processor) : Prop :=
  default ∅ (lti_xblock_default_params q) !! k = None /\
  forall claims, processor_call q = Ok (Some claims) -> claims !! k = None.

(** * Properties *)

(** ** Strings *)

Lemma app_String a s t : String a s +:+ t = String a (s +:+ t).
Proof. reflexivity. Qed.

Lemma app_empty t : "" +:+ t = t.
Proof. reflexivity. Qed.

Lemma app_assoc_str (s t u : string) : (s +:+ t) +:+ u = s +:+ t +:+ u.
Proof.
  induction s as [|a s IH]; [done|].
  rewrite !app_String, IH. done.
Qed.

(** Unfolds the string functions on constructor-headed arguments, and
    leaves integer addition as it is for [lia]. *)
Ltac str_simpl := rewrite ?app_String, ?app_empty; cbn -[Z.add]; rewrite ?app_String, ?app_empty.

Lemma contains_app c s t :
  PyStr.contains c (s +:+ t) = PyStr.contains c s || PyStr.contains c t.
Proof.
  induction s as [|a s IH]; str_simpl; [done|].
  rewrite IH. apply orb_assoc.
Qed.

Lemma len_nonneg s : 0 <= PyStr.len s.
Proof. induction s; str_simpl; lia. Qed.

Lemma len_app s t : PyStr.len (s +:+ t) = PyStr.len s + PyStr.len t.
Proof. induction s as [|a s IH]; str_simpl; lia. Qed.

(** A string followed by a ['/'] segment is longer than the string. *)
Lemma app_slash_neq (u rest : string) : u +:+ "/" +:+ rest ≠ u.
Proof.
  intros H. apply (f_equal PyStr.len) in H.
  rewrite !len_app in H. cbn -[Z.add] in H.
  pose proof (len_nonneg rest). lia.
Qed.

(** [rfind] answers [-1] when the character is absent, and always an
    index below the length. *)
Lemma rfind_absent c s : PyStr.contains c s = false -> PyStr.rfind c s = -1.
Proof.
  induction s as [|a s IH]; str_simpl; [done|].
  intros [Ha Hs]%orb_false_iff. rewrite (IH Hs), Ha. done.
Qed.

Lemma rfind_range c s : -1 <= PyStr.rfind c s < PyStr.len s.
Proof.
  induction s as [|a s IH]; str_simpl; [lia|].
  destruct (0 <=? PyStr.rfind c s) eqn:E; [lia|].
  destruct (Ascii.eqb a c); lia.
Qed.

Lemma drop_app_len s t : PyStr.drop (Z.to_nat (PyStr.len s)) (s +:+ t) = t.
Proof.
  induction s as [|a s IH]; [done|].
  rewrite app_String. cbn [PyStr.len].
  pose proof (len_nonneg s).
  replace (Z.to_nat (1 + PyStr.len s)) with (S (Z.to_nat (PyStr.len s))) by lia.
  exact IH.
Qed.

Lemma rfind_app_sep c s t :
  PyStr.contains c t = false ->
  PyStr.rfind c (s +:+ String c t) = PyStr.len s.
Proof.
  intros Ht. induction s as [|a s IH]; str_simpl.
  - rewrite (rfind_absent _ _ Ht), Ascii.eqb_refl. done.
  - rewrite IH. pose proof (len_nonneg s).
    destruct (0 <=? PyStr.len s) eqn:E; [done|]. apply Z.leb_gt in E. lia.
Qed.

(** [basename] is the text after the last ['/']. *)
Lemma basename_no_slash (f : string) :
  PyStr.contains "/" f = false -> basename f = f.
Proof. intros H. unfold basename. rewrite (rfind_absent _ _ H). done. Qed.

Lemma basename_after_slash (dir f : string) :
  PyStr.contains "/" f = false -> basename (dir +:+ "/" +:+ f) = f.
Proof.
  intros H. unfold basename, PyStr.slice_from.
  change (dir +:+ "/" +:+ f) with (dir +:+ String "/" f).
  rewrite (rfind_app_sep _ _ _ H).
  change (dir +:+ String "/" f) with (dir +:+ "/" +:+ f).
  rewrite <- app_assoc_str.
  replace (PyStr.len dir + 1) with (PyStr.len (dir +:+ "/"))
    by (rewrite len_app; cbn -[Z.add]; lia).
  apply drop_app_len.
Qed.

(** The primitives on the declared defaults of the block. *)
Example basename_default_repo :
  basename "https://github.com/calculquebec/jupytermc-xblock.git"
  = "jupytermc-xblock.git".
Proof. reflexivity. Qed.

Example strip_hub_path : PyStr.strip "/" "//jupyter/hub/" = "jupyter/hub".
Proof. reflexivity. Qed.

Example quote_plus_reserved :
  Urllib.quote_plus "a b+c&d=e/f?g~" = "a+b%2Bc%26d%3De%2Ff%3Fg~".
Proof. reflexivity. Qed.

Example next_url_default_block :
  next_url sample_urlparse_path default_block
  = "jupyter/hub/user-redirect/git-pull?"
    +:+ "repo=https%3A%2F%2Fgithub.com%2Fcalculquebec%2Fjupytermc-xblock.git"
    +:+ "&branch=main"
    +:+ "&urlpath=lab%2Ftree%2Fjupytermc-xblock.git%2Fstatic%2Fnotebooks%2Fhello.ipynb".
Proof. reflexivity. Qed.

Example next_url_terminal :
  next_url (fun _ => "") (with_urlbasepath "terminals/1" default_block)
  = "/hub/user-redirect/git-pull?"
    +:+ "repo=https%3A%2F%2Fgithub.com%2Fcalculquebec%2Fjupytermc-xblock.git"
    +:+ "&branch=main"
    +:+ "&urlpath=terminals%2F1".
Proof. reflexivity. Qed.

(** ** The role table *)

(** The lookup with its default, case by case. *)
Lemma lti_1p1_role_cases (r : string) :
  lti_1p1_role r =
    if decide (r = "student") then "Student,Learner"
    else if decide (r = "staff") then "Administrator"
    else if decide (r = "instructor") then "Instructor"
    else "Student,Learner".
Proof.
  unfold lti_1p1_role, dict_get, LTI_1P1_ROLE_MAP.
  rewrite !lookup_insert, lookup_empty.
  repeat case_decide; subst; try done.
Qed.

(** ** [launch_target] and [lti_version] *)

(** C7. Each of the four window-forcing interface values gives
    ['new_window']; every other value gives what the inherited property
    returns. *)
Theorem launch_target_new_window_or_inherited (self : JupyterMCXBlock) :
  (urlbasepath self = "rstudio" \/ urlbasepath self = "openrefine" \/
   urlbasepath self = "Desktop" \/ urlbasepath self = "code-server" ->
   launch_target self = "new_window") /\
  (urlbasepath self <> "rstudio" -> urlbasepath self <> "openrefine" ->
   urlbasepath self <> "Desktop" -> urlbasepath self <> "code-server" ->
   launch_target self = super_launch_target self).
Proof.
  unfold launch_target, new_window_interfaces. split.
  - intros H. case_decide as Hin; [done|].
    exfalso. apply Hin. rewrite !elem_of_cons. tauto.
  - intros H1 H2 H3 H4. case_decide as Hin; [|done].
    rewrite !elem_of_cons, elem_of_nil in Hin. tauto.
Qed.

Lemma launch_target_new_window_or_inherited_witness :
  launch_target (with_urlbasepath "openrefine" default_block) = "new_window" /\
  launch_target (with_urlbasepath "terminals/1" default_block) = "iframe".
Proof.
  split.
  - apply (proj1 (launch_target_new_window_or_inherited
                    (with_urlbasepath "openrefine" default_block))).
    right. left. reflexivity.
  - apply (proj2 (launch_target_new_window_or_inherited
                    (with_urlbasepath "terminals/1" default_block)));
      simpl; discriminate.
Defined.

(** C8. The reported protocol version is ['lti_1p1'] for every instance,
    whatever its fields hold and whatever the base class would select. *)
Theorem lti_version_fixed (self : JupyterMCXBlock) :
  lti_version self = "lti_1p1" /\
  forall other : JupyterMCXBlock, lti_version other = lti_version self.
Proof. split; reflexivity. Qed.

(** ** The redirect path *)

Lemma urlpath_collapsed (self : JupyterMCXBlock) :
  urlbasepath self ∈ no_document_interfaces -> urlpath self = urlbasepath self.
Proof.
  intros Hin. unfold urlpath, next_query_params.
  rewrite decide_True by done. reflexivity.
Qed.

Lemma urlpath_full (self : JupyterMCXBlock) :
  urlbasepath self ∉ no_document_interfaces ->
  urlpath self =
    urlbasepath self +:+ "/" +:+ basename (nb_git_repo self)
                +:+ "/" +:+ nb_git_file self.
Proof.
  intros Hin. unfold urlpath, next_query_params.
  rewrite decide_False by done. reflexivity.
Qed.

Lemma no_document_interfaces_NoDup : NoDup no_document_interfaces.
Proof.
  unfold no_document_interfaces.
  repeat (apply NoDup_cons; split;
          [rewrite ?elem_of_cons, elem_of_nil; intros H;
           repeat (destruct H as [H|H]; [discriminate H|]); exact H|]).
  apply NoDup_nil. done.
Qed.

Lemma collapses_iff (u : string) :
  collapses_to_interface u <-> u ∈ no_document_interfaces.
Proof.
  split.
  - intros Hc. destruct (decide (u ∈ no_document_interfaces)) as [|Hout]; [done|].
    exfalso. specialize (Hc (with_urlbasepath u default_block) eq_refl).
    rewrite urlpath_full in Hc by exact Hout.
    exact (app_slash_neq _ _ Hc).
  - intros Hin self <-. by apply urlpath_collapsed.
Qed.

(** C2, as stated, fails: no duplicate-free list of four values holds
    every interface value whose redirect path collapses to the value
    itself, because five distinct values do
    (['terminals/1'] besides the four window-forcing ones). *)
Lemma no_document_interfaces_not_four :
  ~ exists l : list string,
      NoDup l /\ length l = 4%nat /\
      forall u, collapses_to_interface u <-> u ∈ l.
Proof.
  intros (l & _ & Hlen & Hl).
  assert (Hsub : no_document_interfaces ⊆+ l).
  { apply NoDup_submseteq; [apply no_document_interfaces_NoDup|].
    intros u Hu. apply Hl, collapses_iff, Hu. }
  apply submseteq_length in Hsub. rewrite Hlen in Hsub.
  simpl in Hsub. lia.
Qed.

(** C2, amended. There are exactly five "no specific document" interface
    values, ['terminals/1'], ['rstudio'], ['openrefine'], ['Desktop'] and
    ['code-server']; for each of them, and for no other value, the redirect
    path is the interface value itself with nothing appended. *)
Theorem no_document_interfaces_five :
  let five := ["terminals/1"; "rstudio"; "openrefine"; "Desktop"; "code-server"] in
  NoDup five /\ length five = 5%nat /\
  forall u, collapses_to_interface u <-> u ∈ five.
Proof.
  split; [apply no_document_interfaces_NoDup|].
  split; [reflexivity|]. apply collapses_iff.
Qed.

(** C5. For every interface value outside the "no specific document" list,
    the redirect path is
    [<interface>/<basename of the repository URL>/<file path>]. *)
Theorem urlpath_interface_repo_file (self : JupyterMCXBlock) :
  urlbasepath self ∉
    ["terminals/1"; "rstudio"; "openrefine"; "Desktop"; "code-server"] ->
  urlpath self =
    urlbasepath self +:+ "/" +:+ basename (nb_git_repo self)
                +:+ "/" +:+ nb_git_file self.
Proof. apply urlpath_full. Qed.

Lemma urlpath_interface_repo_file_witness :
  urlpath default_block =
    "lab/tree/jupytermc-xblock.git/static/notebooks/hello.ipynb".
Proof.
  apply (urlpath_interface_repo_file default_block).
  simpl. rewrite !elem_of_cons, elem_of_nil.
  intros H. repeat (destruct H as [H|H]; [discriminate H|]). exact H.
Defined.

(** ** The custom-parameters map *)

(** C10. [prefixed_custom_parameters] returns the inherited map with every
    key other than ['next'] as the base class gave it, and with ['next']
    bound to the composed git-pull URL, whatever the inherited map held
    under ['next']. *)
Theorem prefixed_custom_parameters_frame
    (urlparse_path : string -> string) (self : JupyterMCXBlock) :
  (forall k : string, k <> "next" ->
     prefixed_custom_parameters urlparse_path self !! k
     = super_prefixed_custom_parameters self !! k) /\
  prefixed_custom_parameters urlparse_path self !! "next"
  = Some (PyStr.strip "/" (urlparse_path (hub_url self))
            +:+ "/hub/user-redirect/git-pull?"
            +:+ Urllib.urlencode (next_query_params self)).
Proof.
  unfold prefixed_custom_parameters. split.
  - intros k Hk. by rewrite lookup_insert_ne.
  - by rewrite lookup_insert_eq.
Qed.

Lemma prefixed_custom_parameters_frame_witness :
  prefixed_custom_parameters sample_urlparse_path default_block
    !! "custom_component_display_name" = Some "JupyterHub" /\
  super_prefixed_custom_parameters default_block !! "next" = Some "/author" /\
  prefixed_custom_parameters sample_urlparse_path default_block !! "next"
  = Some ("jupyter/hub/user-redirect/git-pull?"
          +:+ "repo=https%3A%2F%2Fgithub.com%2Fcalculquebec%2Fjupytermc-xblock.git"
          +:+ "&branch=main"
          +:+ "&urlpath=lab%2Ftree%2Fjupytermc-xblock.git%2Fstatic%2Fnotebooks%2Fhello.ipynb").
Proof.
  destruct (prefixed_custom_parameters_frame sample_urlparse_path default_block)
    as [Hother Hnext].
  split; [|split].
  - rewrite (Hother "custom_component_display_name") by discriminate.
    reflexivity.
  - reflexivity.
  - rewrite Hnext. reflexivity.
Defined.

(** ** Quoting and the query string *)

Ltac each_byte c := destruct c as [[] [] [] [] [] [] [] []].

Lemma quote_byte_delimiter_free safe x c :
  plus_safe safe -> delimiter x ->
  PyStr.contains x (Urllib.quote_byte safe c) = false.
Proof.
  intros [-> | ->] [-> | [-> | [-> | ->]]]; each_byte c; reflexivity.
Qed.

Lemma quote_delimiter_free safe x s :
  plus_safe safe -> delimiter x ->
  PyStr.contains x (Urllib.quote safe s) = false.
Proof.
  intros Hsafe Hx. induction s as [|c s IH]; [done|].
  cbn [Urllib.quote]. rewrite contains_app, IH.
  by rewrite quote_byte_delimiter_free.
Qed.

Lemma contains_replace x a b s :
  x <> a -> x <> b ->
  PyStr.contains x (PyStr.replace a b s) = PyStr.contains x s.
Proof.
  intros Ha Hb. induction s as [|c s IH]; [done|].
  cbn [PyStr.replace PyStr.contains]. rewrite IH. f_equal.
  destruct (Ascii.eqb_spec c a) as [->|Hca].
  - transitivity false; [|symmetry]; by apply Ascii.eqb_neq.
  - done.
Qed.

Lemma quote_plus_free x s :
  x = "&"%char \/ x = "="%char \/ x = "?"%char ->
  PyStr.contains x (Urllib.quote_plus s) = false.
Proof.
  intros Hx. assert (Hd : delimiter x) by (unfold delimiter; tauto).
  unfold Urllib.quote_plus. destruct (PyStr.contains " " s).
  - rewrite contains_replace.
    + apply quote_delimiter_free; [by right | done].
    + destruct Hx as [-> | [-> | ->]]; discriminate.
    + destruct Hx as [-> | [-> | ->]]; discriminate.
  - apply quote_delimiter_free; [by left | done].
Qed.

(** Undoing [quote_plus]. *)
Lemma replace_absent a b s :
  PyStr.contains a s = false -> PyStr.replace a b s = s.
Proof.
  induction s as [|c s IH]; [done|].
  cbn [PyStr.replace PyStr.contains].
  intros [Hc Hs]%orb_false_iff. by rewrite Hc, IH.
Qed.

Lemma replace_back a b s :
  PyStr.contains b s = false ->
  PyStr.replace b a (PyStr.replace a b s) = s.
Proof.
  induction s as [|c s IH]; [done|].
  cbn [PyStr.replace PyStr.contains].
  intros [Hc Hs]%orb_false_iff. rewrite IH by done. f_equal.
  destruct (Ascii.eqb_spec c a) as [->|Hca].
  - by rewrite Ascii.eqb_refl.
  - by rewrite Hc.
Qed.

Lemma unquote_quote_byte safe c rest :
  plus_safe safe ->
  Urllib.unquote (Urllib.quote_byte safe c +:+ rest)
  = String c (Urllib.unquote rest).
Proof. intros [-> | ->]; each_byte c; reflexivity. Qed.

Lemma unquote_quote safe s :
  plus_safe safe -> Urllib.unquote (Urllib.quote safe s) = s.
Proof.
  intros Hsafe. induction s as [|c s IH]; [done|].
  cbn [Urllib.quote]. by rewrite unquote_quote_byte, IH.
Qed.

Lemma unquote_plus_quote_plus s :
  Urllib.unquote_plus (Urllib.quote_plus s) = s.
Proof.
  unfold Urllib.unquote_plus, Urllib.quote_plus.
  destruct (PyStr.contains " " s).
  - rewrite replace_back.
    + apply unquote_quote. by right.
    + apply quote_delimiter_free; [by right | unfold delimiter; tauto].
  - rewrite replace_absent.
    + apply unquote_quote. by left.
    + apply quote_delimiter_free; [by left | unfold delimiter; tauto].
Qed.

(** Splitting at a separator that the first piece does not contain. *)
Lemma split_absent c s :
  PyStr.contains c s = false -> PyStr.split c s = [s].
Proof.
  induction s as [|a s IH]; [done|].
  cbn [PyStr.split PyStr.contains].
  intros [Ha Hs]%orb_false_iff. by rewrite Ha, IH.
Qed.

Lemma split_app_sep c s rest :
  PyStr.contains c s = false ->
  PyStr.split c (s +:+ String c rest) = s :: PyStr.split c rest.
Proof.
  induction s as [|a s IH].
  - intros _. rewrite app_empty. cbn [PyStr.split]. by rewrite Ascii.eqb_refl.
  - cbn [PyStr.contains]. intros [Ha Hs]%orb_false_iff.
    rewrite app_String. cbn [PyStr.split]. by rewrite Ha, IH.
Qed.

Lemma partition_app_sep c s rest :
  PyStr.contains c s = false ->
  PyStr.partition c (s +:+ String c rest) = (s, rest).
Proof.
  induction s as [|a s IH].
  - intros _. rewrite app_empty. cbn [PyStr.partition]. by rewrite Ascii.eqb_refl.
  - cbn [PyStr.contains]. intros [Ha Hs]%orb_false_iff.
    rewrite app_String. cbn [PyStr.partition]. by rewrite Ha, IH.
Qed.

(** One [k=v] item of the encoded query. *)
Lemma item_free x k v :
  x = "&"%char \/ x = "?"%char ->
  PyStr.contains x (Urllib.quote_plus k +:+ "=" +:+ Urllib.quote_plus v) = false.
Proof.
  intros Hx. rewrite !contains_app, !quote_plus_free by tauto.
  destruct Hx as [-> | ->]; reflexivity.
Qed.

Lemma urlencode_free x (d : odict) :
  x = "?"%char -> PyStr.contains x (Urllib.urlencode d) = false.
Proof.
  intros ->. unfold Urllib.urlencode.
  induction d as [|[k v] d IH]; [done|].
  destruct d as [|kv d].
  - cbn [map PyStr.join fst snd]. apply item_free. by right.
  - change (PyStr.contains "?"
      ((Urllib.quote_plus k +:+ "=" +:+ Urllib.quote_plus v) +:+ "&" +:+
       PyStr.join "&" (map (fun kv => Urllib.quote_plus (fst kv) +:+ "="
                                       +:+ Urllib.quote_plus (snd kv)) (kv :: d)))
      = false).
    rewrite contains_app, item_free by (by right).
    rewrite contains_app, IH. reflexivity.
Qed.

Lemma parse_item k v :
  (if String.eqb (Urllib.quote_plus k +:+ "=" +:+ Urllib.quote_plus v) ""
   then []
   else let '(name, value) :=
          PyStr.partition "=" (Urllib.quote_plus k +:+ "=" +:+ Urllib.quote_plus v) in
        [(Urllib.unquote_plus name, Urllib.unquote_plus value)])
  = [(k, v)].
Proof.
  change (Urllib.quote_plus k +:+ "=" +:+ Urllib.quote_plus v)
    with (Urllib.quote_plus k +:+ String "=" (Urllib.quote_plus v)).
  rewrite partition_app_sep by (apply quote_plus_free; tauto).
  rewrite !unquote_plus_quote_plus.
  destruct (Urllib.quote_plus k); reflexivity.
Qed.

(** Reading back what [urlencode] wrote gives the dict, pair by pair and
    in order. *)
Lemma parse_qsl_urlencode (d : odict) :
  Urllib.parse_qsl (Urllib.urlencode d) = d.
Proof.
  unfold Urllib.parse_qsl, Urllib.urlencode.
  induction d as [|[k v] d IH]; [done|].
  destruct d as [|kv d].
  - cbn [map PyStr.join fst snd].
    rewrite split_absent by (apply item_free; by left).
    cbn [flat_map]. rewrite parse_item. done.
  - change (PyStr.join "&" (map _ ((k, v) :: kv :: d)))
      with ((Urllib.quote_plus k +:+ "=" +:+ Urllib.quote_plus v) +:+
            String "&" (PyStr.join "&"
              (map (fun kv => Urllib.quote_plus (fst kv) +:+ "="
                               +:+ Urllib.quote_plus (snd kv)) (kv :: d)))).
    rewrite split_app_sep by (apply item_free; by left).
    cbn [flat_map]. rewrite parse_item, IH. done.
Qed.

Lemma next_query_params_keys (self : JupyterMCXBlock) :
  next_query_params self =
    [ ("repo", nb_git_repo self);
      ("branch", nb_git_branch self);
      ("urlpath", urlpath self) ].
Proof.
  unfold urlpath, next_query_params. case_decide; reflexivity.
Qed.

(** C6. For every configuration, the ['next'] custom parameter is the hub
    base path, the fixed segment ['/hub/user-redirect/git-pull'], a ['?']
    and a URL-encoded query string; the query string has no ['?'] of its
    own and reads back as exactly the three pairs [repo], [branch] and
    [urlpath], bound to the configured repository URL, the configured
    branch and the derived redirect path. *)
Theorem next_parameter_format
    (urlparse_path : string -> string) (self : JupyterMCXBlock) :
  exists query : string,
    prefixed_custom_parameters urlparse_path self !! "next"
    = Some (hub_url_base_path urlparse_path self
              +:+ "/hub/user-redirect/git-pull" +:+ "?" +:+ query) /\
    PyStr.contains "?" query = false /\
    Urllib.parse_qsl query =
      [ ("repo", nb_git_repo self);
        ("branch", nb_git_branch self);
        ("urlpath", urlpath self) ].
Proof.
  exists (Urllib.urlencode (next_query_params self)). split; [|split].
  - unfold prefixed_custom_parameters, next_url.
    rewrite lookup_insert_eq. do 2 f_equal.
  - by apply urlencode_free.
  - rewrite parse_qsl_urlencode. apply next_query_params_keys.
Qed.

(** ** The handler monad *)

Lemma bind_run {A B} (m : M A) (f : A -> M B) (w : World) :
  (m ≫= f) w =
    match m w with
    | (Ok a, w') => f a w'
    | (Raise e, w') => (Raise e, w')
    end.
Proof. reflexivity. Qed.

(** Runs the next steps of a handler computation on the world it is
    applied to. *)
Ltac run_steps :=
  repeat first
    [ rewrite bind_run
    | progress cbn [update_consumer emit_log track_event get_consumer mret M_ret] ].

Lemma bind_returns {A B} (m : M A) (f : A -> M B) (w w' : World) (a : A) :
  m w = (Ok a, w') -> (m ≫= f) w = f a w'.
Proof. intros H. by rewrite bind_run, H. Qed.

Lemma bind_raises {A B} (m : M A) (f : A -> M B) (w w' : World) (e : exn) :
  m w = (Raise e, w') -> (m ≫= f) w = (Raise e, w').
Proof. intros H. by rewrite bind_run, H. Qed.

(** Decides that a literal name is bound, by running the lookup. *)
Ltac bound_name :=
  apply (proj1 (bool_decide_eq_true _)); vm_compute; reflexivity.

Lemma load_global_bound (name : string) (w : World) :
  name ∈ module_globals ++ builtins -> load_global name w = (Ok tt, w).
Proof. intros H. unfold load_global. by rewrite decide_True. Qed.

(** [log] is bound neither in the module nor in the builtins. *)
Lemma log_unbound : "log" ∉ module_globals ++ builtins.
Proof. apply (proj1 (bool_decide_eq_false _)). vm_compute. reflexivity. Qed.

Lemma load_global_log (w : World) :
  load_global "log" w = (Raise (NameError "log"), w).
Proof. unfold load_global. rewrite decide_False; [done | apply log_unbound]. Qed.

Lemma logger_bound : "logger" ∈ module_globals ++ builtins.
Proof. bound_name. Qed.

Lemma only_extra_claims_refl (w : World) : only_extra_claims w w.
Proof. by repeat split. Qed.

Lemma only_extra_claims_trans (w1 w2 w3 : World) :
  only_extra_claims w1 w2 -> only_extra_claims w2 w3 -> only_extra_claims w1 w3.
Proof.
  unfold only_extra_claims, same_but_extra_claims.
  intros ((?&?&?&?&?&?)&?&?) ((?&?&?&?&?&?)&?&?).
  repeat split; congruence.
Qed.

(** ** The processor loop *)

Lemma apply_processor_returns (q : Processor) (w : World) claims :
  processor_call q = Ok claims ->
  exists w', apply_processor q w = (Ok tt, w') /\ only_extra_claims w w'.
Proof.
  intros Hq. unfold apply_processor, try_except.
  rewrite bind_run. cbn [update_consumer].
  rewrite bind_run. unfold call at 1. rewrite Hq.
  eexists. split; [reflexivity|]. by repeat split.
Qed.

Lemma apply_processor_raises (p : Processor) (w : World) e :
  processor_call p = Raise e ->
  exists w', apply_processor p w = (Raise (NameError "log"), w') /\
             only_extra_claims w w'.
Proof.
  intros Hp. unfold apply_processor, try_except.
  rewrite bind_run. cbn [update_consumer].
  rewrite bind_run. unfold call at 1. rewrite Hp.
  cbn [is_Exception]. rewrite bind_run, load_global_log.
  eexists. split; [reflexivity|]. by repeat split.
Qed.

Lemma for_each_return (ps : list Processor) (w : World) :
  Forall (fun q => exists claims, processor_call q = Ok claims) ps ->
  exists w', for_each ps apply_processor w = (Ok tt, w') /\
             only_extra_claims w w'.
Proof.
  intros Hps. revert w. induction Hps as [|q ps [claims Hq] _ IH]; intros w.
  - exists w. split; [reflexivity | apply only_extra_claims_refl].
  - destruct (apply_processor_returns q w claims Hq) as (w1 & Hrun & Hframe).
    destruct (IH w1) as (w2 & Hrest & Hframe').
    exists w2. split.
    + cbn [for_each]. by rewrite (bind_returns _ _ _ _ _ Hrun).
    + eapply only_extra_claims_trans; eassumption.
Qed.

Lemma for_each_raise (ps : list Processor) (w : World) :
  Exists (fun p => exists e, processor_call p = Raise e) ps ->
  exists w', for_each ps apply_processor w = (Raise (NameError "log"), w') /\
             only_extra_claims w w'.
Proof.
  intros Hps. revert w. induction ps as [|q ps IH]; intros w.
  - by apply Exists_nil in Hps.
  - cbn [for_each]. destruct (processor_call q) as [claims|e] eqn:Hq.
    + destruct (apply_processor_returns q w claims Hq) as (w1 & Hrun & Hframe).
      apply Exists_cons in Hps as [[e He]|Hps]; [congruence|].
      destruct (IH Hps w1) as (w2 & Hrest & Hframe').
      exists w2. split.
      * by rewrite (bind_returns _ _ _ _ _ Hrun).
      * eapply only_extra_claims_trans; eassumption.
    + destruct (apply_processor_raises q w e Hq) as (w1 & Hrun & Hframe).
      exists w1. split; [|done].
      by rewrite (bind_raises _ _ _ _ _ Hrun).
Qed.

Lemma for_each_frame (ps : list Processor) (w : World) :
  only_extra_claims w (snd (for_each ps apply_processor w)).
Proof.
  revert w. induction ps as [|q ps IH]; intros w.
  - apply only_extra_claims_refl.
  - cbn [for_each]. rewrite bind_run.
    destruct (processor_call q) as [claims|e] eqn:Hq.
    + destruct (apply_processor_returns q w claims Hq) as (w1 & -> & Hframe).
      eapply only_extra_claims_trans; [exact Hframe | apply IH].
    + destruct (apply_processor_raises q w e Hq) as (w1 & -> & Hframe).
      exact Hframe.
Qed.

(** ** Identity extraction *)

(** The [try] block reads the instance and leaves the world alone. *)
Lemma extract_identity_world (self : JupyterMCXBlock) (w : World) :
  extract_identity self w = (fst (extract_identity self fresh_world), w).
Proof.
  unfold extract_identity. rewrite !bind_run. unfold call.
  destruct (extract_real_user_data self); [|done].
  rewrite !bind_run.
  destruct (get_lti_1p1_user_id self); [|done].
  rewrite !bind_run.
  destruct (role self); [|done].
  rewrite !bind_run, !load_global_bound
    by bound_name.
  rewrite !bind_run.
  destruct (lis_result_sourcedid self); done.
Qed.

Lemma extract_identity_returns (self : JupyterMCXBlock) (w : World) d uid r sid :
  extract_real_user_data self = Ok d ->
  get_lti_1p1_user_id self = Ok uid ->
  role self = Ok r ->
  lis_result_sourcedid self = Ok sid ->
  extract_identity self w = (Ok (d, uid, lti_1p1_role r, sid), w).
Proof.
  intros Hd Huid Hr Hsid. rewrite extract_identity_world. f_equal.
  unfold extract_identity. rewrite !bind_run. unfold call.
  rewrite Hd, !bind_run, Huid, !bind_run, Hr.
  rewrite !bind_run, !load_global_bound
    by bound_name.
  rewrite !bind_run, Hsid. reflexivity.
Qed.

Section HandlerFacts.

Variable urlparse_path : string -> string.
Variable generate_launch_request :
  LtiConsumer1p1 -> string -> result (gmap string string).
Variable render_django_template : string -> gmap string ctx_value -> string.

Local Abbreviation handler :=
  (lti_launch_handler urlparse_path generate_launch_request render_django_template).

Lemma handler_identity_returns self w identity :
  fst (extract_identity self w) = Ok identity ->
  handler self w =
    launch_form_response urlparse_path generate_launch_request
      render_django_template self identity (handler_start self w).
Proof.
  intros Hid. rewrite extract_identity_world in Hid. cbn [fst] in Hid.
  unfold lti_launch_handler. rewrite bind_run. cbn [update_consumer].
  rewrite bind_run. unfold try_except. rewrite bind_run.
  rewrite extract_identity_world, Hid. reflexivity.
Qed.

Lemma handler_identity_raises self w e :
  fst (extract_identity self w) = Raise e ->
  handler self w =
    if is_LtiError e then
      (Ok {| body := render_django_template
                       "/templates/html/lti_launch_error.html"
                       {[ "error_msg" := CtxErr e ]};
             status := 400;
             content_type := "text/html" |},
       handler_start self w)
    else (Raise e, handler_start self w).
Proof.
  intros Hid. rewrite extract_identity_world in Hid. cbn [fst] in Hid.
  unfold lti_launch_handler. rewrite bind_run. cbn [update_consumer].
  rewrite bind_run. unfold try_except. rewrite bind_run.
  rewrite extract_identity_world, Hid.
  destruct (is_LtiError e); [|reflexivity].
  unfold launch_error_response.
  rewrite !bind_run, !load_global_bound
    by bound_name.
  rewrite !bind_run, !load_global_bound
    by bound_name.
  reflexivity.
Qed.

(** Source lines 196-225 always return; they store the identity and the
    custom parameters in the builder and write the one [INFO] record of
    [prefixed_custom_parameters]. *)
Lemma populate_consumer_returns self d uid r sid w :
  exists c,
    populate_consumer urlparse_path self (d, uid, r, sid) w
    = (Ok tt, {| lti_consumer := c;
                 log_records := log_records w ++ [("INFO", fetching_log_record self)];
                 tracked_events := tracked_events w |}) /\
    (exists ud, lti_user_data c = Some ud /\ ud_user_id ud = uid /\ ud_roles ud = r) /\
    lti_custom_parameters c = prefixed_custom_parameters urlparse_path self /\
    lti_launch_url c = lti_launch_url (lti_consumer w).
Proof.
  unfold populate_consumer, read_prefixed_custom_parameters, when.
  destruct (has_score self), (truthy (user_language d));
    run_steps; rewrite (load_global_bound _ _ logger_bound); run_steps;
    (eexists; split; [reflexivity|]; cbn; eauto 10).
Qed.

Lemma render_launch_form_returns self w lti_parameters :
  generate_launch_request (lti_consumer w) (resource_link_id self) = Ok lti_parameters ->
  render_launch_form generate_launch_request render_django_template self w
  = (Ok {| body := render_django_template "/templates/html/lti_launch.html"
                     (<["lti_parameters" := CtxParams lti_parameters]>
                        (_get_context_for_template self));
           status := 200;
           content_type := "text/html" |},
     {| lti_consumer := lti_consumer w;
        log_records := log_records w;
        tracked_events := tracked_events w ++
          [("xblock.launch_request",
            {| ev_lti_version := lti_parameters !! "lti_version";
               ev_user_roles := lti_parameters !! "roles";
               ev_launch_url := lti_launch_url (lti_consumer w) |})] |}).
Proof.
  intros Hgen. unfold render_launch_form.
  rewrite bind_run. cbn [get_consumer].
  rewrite bind_run. unfold call at 1. rewrite Hgen.
  rewrite !bind_run, !load_global_bound
    by bound_name.
  rewrite !bind_run. cbn [track_event].
  rewrite !bind_run, !load_global_bound
    by bound_name.
  rewrite !bind_run, !load_global_bound
    by bound_name.
  reflexivity.
Qed.

Lemma render_launch_form_raises self w e :
  generate_launch_request (lti_consumer w) (resource_link_id self) = Raise e ->
  render_launch_form generate_launch_request render_django_template self w
  = (Raise e, w).
Proof.
  intros Hgen. unfold render_launch_form.
  rewrite bind_run. cbn [get_consumer].
  rewrite bind_run. unfold call at 1. by rewrite Hgen.
Qed.

Local Abbreviation launch_form :=
  (launch_form_response urlparse_path generate_launch_request render_django_template).

(** Whatever happens after source line 211, the builder keeps the user
    data stored there. *)
Lemma launch_form_user_data self d uid r sid w :
  exists ud,
    lti_user_data (lti_consumer (snd (launch_form self (d, uid, r, sid) w))) = Some ud /\
    ud_roles ud = r.
Proof.
  unfold launch_form_response. rewrite bind_run.
  destruct (populate_consumer_returns self d uid r sid w)
    as (c & -> & (ud & Hud & _ & Hr) & _).
  exists ud. split; [|exact Hr].
  rewrite bind_run. unfold apply_processors.
  match goal with |- context [for_each ?ps apply_processor ?w1] =>
    pose proof (for_each_frame ps w1) as Hframe;
    destruct (for_each ps apply_processor w1) as [[[]|e] w2]
  end; destruct Hframe as ((_ & Hkeep & _) & _); cbn in Hkeep.
  - destruct (generate_launch_request (lti_consumer w2) (resource_link_id self))
      as [p|e] eqn:Hgen.
    + rewrite (render_launch_form_returns _ _ _ Hgen). cbn. congruence.
    + rewrite (render_launch_form_raises _ _ _ Hgen). cbn. congruence.
  - cbn. congruence.
Qed.

(** C4. For every platform role [r], the LTI 1.1 role is
    ['Student,Learner'] for ['student'], ['Administrator'] for ['staff'],
    ['Instructor'] for ['instructor'] and ['Student,Learner'] for any
    other value; and that is the role the handler leaves in the request
    builder of a launch whose identity extraction returned with
    platform role [r]. *)
Theorem lti_1p1_role_table (r : string) :
  let sent :=
    if decide (r = "student") then "Student,Learner"
    else if decide (r = "staff") then "Administrator"
    else if decide (r = "instructor") then "Instructor"
    else "Student,Learner" in
  lti_1p1_role r = sent /\
  forall (self : JupyterMCXBlock) (w : World) d uid sid,
    extract_real_user_data self = Ok d ->
    get_lti_1p1_user_id self = Ok uid ->
    role self = Ok r ->
    lis_result_sourcedid self = Ok sid ->
    exists ud,
      lti_user_data (lti_consumer (snd (handler self w))) = Some ud /\
      ud_roles ud = sent.
Proof.
  intros sent. split; [apply lti_1p1_role_cases|].
  intros self w d uid sid Hd Huid Hr Hsid.
  pose proof (extract_identity_returns self w d uid r sid Hd Huid Hr Hsid) as Hid.
  rewrite (handler_identity_returns self w _ (f_equal fst Hid)).
  rewrite lti_1p1_role_cases. apply launch_form_user_data.
Qed.

(** C1, as the code has it. When identity extraction returns and a
    registered processor raises, the handler returns no response: the
    [except] block reads the unbound name [log], and the [NameError]
    leaves the handler.  Nothing is logged about the processor; the only
    record written is the [INFO] one of [prefixed_custom_parameters],
    and no tracking event is emitted. *)
Theorem raising_processor_escapes_handler self w identity p e :
  fst (extract_identity self w) = Ok identity ->
  p ∈ get_parameter_processors self ->
  processor_call p = Raise e ->
  exists w',
    handler self w = (Raise (NameError "log"), w') /\
    log_records w' = log_records w ++ [("INFO", fetching_log_record self)] /\
    tracked_events w' = tracked_events w.
Proof.
  intros Hid Hin Hp.
  rewrite (handler_identity_returns self w _ Hid).
  destruct identity as [[[d uid] r] sid].
  unfold launch_form_response. rewrite bind_run.
  destruct (populate_consumer_returns self d uid r sid (handler_start self w))
    as (c & -> & _).
  rewrite bind_run. unfold apply_processors.
  match goal with |- context [for_each ?ps apply_processor ?w1] =>
    destruct (for_each_raise ps w1) as (w2 & -> & (_ & Hlog & Hev))
  end.
  - apply Exists_exists. exists p. split; [done | by exists e].
  - exists w2. split; [reflexivity|]. by rewrite Hlog, Hev.
Qed.

(** C3, amended. If identity extraction raises [LtiError], the handler
    returns status 400 with the error template rendered on that error,
    so its message is in the body of any template that prints
    [error_msg].  If identity extraction returns, every registered
    processor returns and the request builder signs, the handler returns
    status 200 with the launch template rendered on the signed
    parameters, so their serialization is in the body of any template
    that prints [lti_parameters]. *)
Theorem launch_handler_responses
    (serialize : gmap string string -> string) self w :
  (forall e, occurs_in (exn_str e)
     (render_django_template "/templates/html/lti_launch_error.html"
        {[ "error_msg" := CtxErr e ]})) ->
  (forall context p, context !! "lti_parameters" = Some (CtxParams p) ->
     occurs_in (serialize p)
       (render_django_template "/templates/html/lti_launch.html" context)) ->
  (forall msg, fst (extract_identity self w) = Raise (LtiError msg) ->
     exists response w',
       handler self w = (Ok response, w') /\
       status response = 400 /\
       body response =
         render_django_template "/templates/html/lti_launch_error.html"
           {[ "error_msg" := CtxErr (LtiError msg) ]} /\
       occurs_in msg (body response)) /\
  (forall identity, fst (extract_identity self w) = Ok identity ->
     Forall (fun q => exists claims, processor_call q = Ok claims)
            (get_parameter_processors self) ->
     (forall c, lti_user_data c <> None ->
        exists p, generate_launch_request c (resource_link_id self) = Ok p) ->
     exists response w' c lti_parameters,
       handler self w = (Ok response, w') /\
       status response = 200 /\
       generate_launch_request c (resource_link_id self) = Ok lti_parameters /\
       lti_custom_parameters c = prefixed_custom_parameters urlparse_path self /\
       body response =
         render_django_template "/templates/html/lti_launch.html"
           (<["lti_parameters" := CtxParams lti_parameters]>
              (_get_context_for_template self)) /\
       occurs_in (serialize lti_parameters) (body response)).
Proof.
  intros Herror Hform. split.
  - intros msg Hid.
    rewrite (handler_identity_raises self w _ Hid). cbn [is_LtiError].
    eexists _, _. split; [reflexivity|]. cbn [status body].
    split; [done|]. split; [done|]. apply (Herror (LtiError msg)).
  - intros [[[d uid] r] sid] Hid Hps Hsign.
    rewrite (handler_identity_returns self w _ Hid).
    unfold launch_form_response. rewrite bind_run.
    destruct (populate_consumer_returns self d uid r sid (handler_start self w))
      as (c & -> & (ud & Hud & _) & Hcustom & _).
    rewrite bind_run. unfold apply_processors.
    match goal with |- context [for_each ?ps apply_processor ?w1] =>
      destruct (for_each_return ps w1 Hps)
        as (w2 & -> & ((_ & Hkeep & _ & _ & _ & Hkeep') & _))
    end.
    cbn in Hkeep, Hkeep'.
    destruct (Hsign (lti_consumer w2)) as [p Hgen]; [congruence|].
    rewrite (render_launch_form_returns _ _ _ Hgen).
    eexists _, _, (lti_consumer w2), p. split; [reflexivity|].
    cbn [status body]. repeat split; [exact Hgen | congruence |].
    apply Hform. by rewrite lookup_insert_eq.
Qed.

End HandlerFacts.

Lemma lti_1p1_role_table_witness :
  lti_1p1_role "staff" = "Administrator" /\
  exists ud,
    lti_user_data (lti_consumer (snd
      (lti_launch_handler sample_urlparse_path sample_generate_launch_request
         sample_render_django_template default_block fresh_world))) = Some ud /\
    ud_roles ud = "Administrator".
Proof.
  destruct (lti_1p1_role_table sample_urlparse_path sample_generate_launch_request
              sample_render_django_template "staff") as [Htable Hsent].
  split; [exact Htable|].
  exact (Hsent default_block fresh_world _ _ _ eq_refl eq_refl eq_refl eq_refl).
Defined.

Lemma raising_processor_escapes_handler_witness :
  exists w',
    lti_launch_handler sample_urlparse_path sample_generate_launch_request
      sample_render_django_template
      (with_processors [quiet_processor; raising_processor] default_block)
      fresh_world
    = (Raise (NameError "log"), w') /\
    log_records w' =
      [] ++ [("INFO", fetching_log_record
                        (with_processors [quiet_processor; raising_processor]
                           default_block))] /\
    tracked_events w' = [].
Proof.
  apply (raising_processor_escapes_handler sample_urlparse_path
           sample_generate_launch_request sample_render_django_template
           (with_processors [quiet_processor; raising_processor] default_block)
           fresh_world
           ({| user_username := Some "alice"; user_language := Some "fr" |},
            "5f3a", "Administrator", "course:link:5f3a")
           raising_processor (KeyError "team")).
  - reflexivity.
  - simpl. rewrite !elem_of_cons. right. by left.
  - reflexivity.
Defined.

(** The sample renderer prints what the two templates are handed. *)
Lemma sample_render_error e :
  occurs_in (exn_str e)
    (sample_render_django_template "/templates/html/lti_launch_error.html"
       {[ "error_msg" := CtxErr e ]}).
Proof.
  unfold sample_render_django_template.
  rewrite String.eqb_refl, lookup_singleton_eq.
  by exists "<p>", "</p>".
Defined.

Lemma sample_render_form context p :
  context !! "lti_parameters" = Some (CtxParams p) ->
  occurs_in (sample_serialize p)
    (sample_render_django_template "/templates/html/lti_launch.html" context).
Proof.
  intros H. unfold sample_render_django_template.
  replace (String.eqb "/templates/html/lti_launch.html"
             "/templates/html/lti_launch_error.html") with false by reflexivity.
  rewrite H. by exists "<form>", "</form>".
Defined.

Lemma sample_builder_signs c rl :
  lti_user_data c <> None ->
  exists p, sample_generate_launch_request c rl = Ok p.
Proof.
  intros H. unfold sample_generate_launch_request.
  destruct (lti_user_data c); [by eexists | done].
Defined.

Lemma launch_handler_responses_witness :
  (exists response w',
     lti_launch_handler sample_urlparse_path sample_generate_launch_request
       sample_render_django_template
       (with_identity (Raise (LtiError "no user")) default_block) fresh_world
     = (Ok response, w') /\
     status response = 400 /\
     occurs_in "no user" (body response)) /\
  (exists response w',
     lti_launch_handler sample_urlparse_path sample_generate_launch_request
       sample_render_django_template
       (with_processors [quiet_processor] default_block) fresh_world
     = (Ok response, w') /\
     status response = 200).
Proof.
  split.
  - destruct (proj1 (launch_handler_responses sample_urlparse_path
                       sample_generate_launch_request
                       sample_render_django_template sample_serialize
                       (with_identity (Raise (LtiError "no user")) default_block)
                       fresh_world sample_render_error sample_render_form)
                "no user" eq_refl)
      as (response & w' & Hrun & Hstatus & _ & Hbody).
    by exists response, w'.
  - destruct (proj2 (launch_handler_responses sample_urlparse_path
                       sample_generate_launch_request
                       sample_render_django_template sample_serialize
                       (with_processors [quiet_processor] default_block)
                       fresh_world sample_render_error sample_render_form)
                ({| user_username := Some "alice"; user_language := Some "fr" |},
                 "5f3a", "Administrator", "course:link:5f3a")
                eq_refl)
      as (response & w' & c & p & Hrun & Hstatus & _).
    + apply Forall_cons; split; [by eexists | apply Forall_nil; done].
    + intros c. apply sample_builder_signs.
    + by exists response, w'.
Defined.

(** C3, as stated, fails: on the default block, with a request builder
    whose signing step raises, identity extraction returns and yet the
    handler gives no 200 response; the [ValueError] leaves it. *)
Lemma launch_without_response :
  ~ error_page_or_launch_form
      (lti_launch_handler sample_urlparse_path failing_generate_launch_request
         sample_render_django_template)
      default_block fresh_world.
Proof.
  unfold error_page_or_launch_form.
  rewrite (extract_identity_returns default_block fresh_world _ _ _ _
             eq_refl eq_refl eq_refl eq_refl).
  cbn [fst]. intros (response & Hrun & _).
  assert (Hraise :
    fst (lti_launch_handler sample_urlparse_path failing_generate_launch_request
           sample_render_django_template default_block fresh_world)
    = Raise (ValueError "OAuth signature could not be computed"))
    by (vm_compute; reflexivity).
  rewrite Hraise in Hrun. discriminate Hrun.
Qed.

(** ** The option list *)

(** Two items with no [','] between them are a [SyntaxError], wherever
    they stand in the list. *)
Lemma adjacent_items_rejected (before after : list token) e1 e2 expect_item :
  list_items expect_item (before ++ DICT e1 :: DICT e2 :: after) = None.
Proof.
  revert expect_item. induction before as [|t before IH]; intros expect_item.
  - cbn. by destruct expect_item.
  - destruct t; cbn [app list_items].
    + done.
    + by destruct before.
    + destruct expect_item; [done | apply IH].
    + destruct expect_item; [by rewrite IH | done].
Qed.

(** C9, as the code has it. The option list of source lines 40-48 is not
    a list display: after the fourth entry the [','] is missing, so the
    parser answers [SyntaxError]; with a [','] after each of the first six
    entries the same text is a list of exactly seven options, with the
    values [tree], [lab/tree], [rstudio], [terminals/1], [Desktop],
    [openrefine], [code-server]. *)
Theorem urlbasepath_values_malformed :
  list_display urlbasepath_values_tokens = None /\
  exists options,
    list_display urlbasepath_values_separated = Some options /\
    length options = 7%nat /\
    map entry_value options =
      ["tree"; "lab/tree"; "rstudio"; "terminals/1"; "Desktop"; "openrefine";
       "code-server"].
Proof.
  split.
  - unfold urlbasepath_values_tokens, list_display.
    apply (adjacent_items_rejected
             [ entry "Jupyter Notebook" "tree"; COMMA;
               entry "JupyterLab" "lab/tree"; COMMA;
               entry "RStudio" "rstudio"; COMMA ]).
  - eexists. split; [reflexivity|]. split; reflexivity.
Qed.

(** * Further properties of the code *)

(** ** [os.path.basename] *)

Lemma rfind_present c s : PyStr.contains c s = true -> 0 <= PyStr.rfind c s.
Proof.
  induction s as [|a s IH]; [done|].
  cbn -[Z.add]. destruct (PyStr.contains c s).
  - intros _. specialize (IH eq_refl).
    destruct (0 <=? PyStr.rfind c s) eqn:E; [lia|]. apply Z.leb_gt in E. lia.
  - rewrite orb_false_r. intros ->.
    destruct (0 <=? PyStr.rfind c s); [pose proof (rfind_range c s); lia | lia].
Qed.

Lemma basename_String a s :
  basename (String a s) =
    if PyStr.contains "/" s then basename s
    else if Ascii.eqb a "/" then s else String a s.
Proof.
  unfold basename, PyStr.slice_from. cbn [PyStr.rfind].
  destruct (PyStr.contains "/" s) eqn:Hs.
  - pose proof (rfind_present _ _ Hs) as Hr.
    destruct (0 <=? PyStr.rfind "/" s) eqn:E; [|apply Z.leb_gt in E; lia].
    replace (Z.to_nat (1 + PyStr.rfind "/" s + 1))
      with (S (Z.to_nat (PyStr.rfind "/" s + 1))) by lia.
    reflexivity.
  - rewrite (rfind_absent _ _ Hs). cbn.
    destruct (Ascii.eqb a "/"); reflexivity.
Qed.

(** X1. [basename] splits a path at its last ['/']: the result has no
    ['/'], and the path is a directory part, empty or ending in ['/'],
    followed by the result. *)
Theorem basename_splits_at_last_slash (p : string) :
  PyStr.contains "/" (basename p) = false /\
  exists dir : string,
    p = dir +:+ basename p /\ (dir = "" \/ last_char dir = Some "/"%char).
Proof.
  induction p as [|a p [IHfree (dir & IHeq & IHdir)]].
  - split; [done|]. exists "". by split; [|left].
  - rewrite basename_String. destruct (PyStr.contains "/" p) eqn:Hp.
    + split; [exact IHfree|]. exists (String a dir). split.
      * rewrite app_String. by rewrite <- IHeq.
      * right. destruct IHdir as [-> | Hlast].
        -- rewrite app_empty in IHeq. rewrite <- IHeq in IHfree. congruence.
        -- destruct dir; [done | exact Hlast].
    + destruct (Ascii.eqb_spec a "/") as [->|Ha].
      * split; [exact Hp|]. exists "/". split; [reflexivity | by right].
      * split.
        -- cbn [PyStr.contains]. rewrite Hp, orb_false_r. by apply Ascii.eqb_neq.
        -- exists "". by split; [|left].
Qed.

(** ** [str.strip] and [hub_url_base_path] *)

Lemma lstrip_first c s : first_char (PyStr.lstrip c s) <> Some c.
Proof.
  induction s as [|a s IH]; [done|].
  cbn [PyStr.lstrip]. destruct (Ascii.eqb_spec a c) as [->|Ha]; [exact IH|].
  cbn. congruence.
Qed.

Lemma rstrip_first c s :
  first_char s <> Some c -> first_char (PyStr.rstrip c s) <> Some c.
Proof.
  destruct s as [|a s]; [done|].
  cbn [first_char PyStr.rstrip]. intros Ha.
  destruct (PyStr.rstrip c s).
  - destruct (Ascii.eqb_spec a c) as [->|]; [done | cbn; congruence].
  - cbn. congruence.
Qed.

Lemma rstrip_last c s : last_char (PyStr.rstrip c s) <> Some c.
Proof.
  induction s as [|a s IH]; [done|].
  cbn [PyStr.rstrip]. destruct (PyStr.rstrip c s) as [|b r] eqn:Hr.
  - destruct (Ascii.eqb_spec a c) as [->|Ha]; [done | cbn; congruence].
  - exact IH.
Qed.

(** X2. Whatever path [urlparse] finds in the hub URL, [hub_url_base_path]
    neither begins nor ends with ['/']. *)
Theorem hub_url_base_path_no_outer_slash
    (urlparse_path : string -> string) (self : JupyterMCXBlock) :
  first_char (hub_url_base_path urlparse_path self) <> Some "/"%char /\
  last_char (hub_url_base_path urlparse_path self) <> Some "/"%char.
Proof.
  unfold hub_url_base_path, PyStr.strip. split.
  - apply rstrip_first, lstrip_first.
  - apply rstrip_last.
Qed.

Lemma first_char_app s t :
  first_char (s +:+ t) = match s with EmptyString => first_char t | String a _ => Some a end.
Proof. by destruct s. Qed.

(** X3. The ['next'] URL begins with ['/'] exactly when the hub URL has no
    path besides slashes; under a hub with a path prefix it is a relative
    reference that begins with the prefix. *)
Theorem next_url_absolute_iff_no_base_path
    (urlparse_path : string -> string) (self : JupyterMCXBlock) :
  first_char (next_url urlparse_path self) = Some "/"%char <->
  hub_url_base_path urlparse_path self = "".
Proof.
  unfold next_url. rewrite first_char_app.
  pose proof (hub_url_base_path_no_outer_slash urlparse_path self) as [Hfirst _].
  destruct (hub_url_base_path urlparse_path self) as [|a b]; [done|].
  cbn in Hfirst. split; [intros; congruence | discriminate].
Qed.

(** ** The interface selector in both properties *)

(** X4. Every interface value that forces a new window also collapses the
    redirect path to the bare interface value; ['terminals/1'] is the one
    value that collapses the path and leaves the launch target to the
    base class. *)
Theorem new_window_collapses_urlpath (self : JupyterMCXBlock) :
  (urlbasepath self ∈ new_window_interfaces ->
   launch_target self = "new_window" /\ urlpath self = urlbasepath self) /\
  (urlpath self = urlbasepath self ->
   urlbasepath self ∉ new_window_interfaces ->
   urlbasepath self = "terminals/1" /\
   launch_target self = super_launch_target self).
Proof.
  split.
  - intros Hin. split.
    + unfold launch_target. by rewrite decide_True.
    + apply urlpath_collapsed. unfold no_document_interfaces.
      apply elem_of_cons. by right.
  - intros Hpath Hout.
    destruct (decide (urlbasepath self ∈ no_document_interfaces)) as [Hin|Hno].
    + unfold no_document_interfaces in Hin. apply elem_of_cons in Hin as [Ht|Hin].
      * split; [exact Ht|]. unfold launch_target. by rewrite decide_False.
      * done.
    + rewrite urlpath_full in Hpath by exact Hno.
      destruct (app_slash_neq _ _ Hpath).
Qed.

Lemma new_window_collapses_urlpath_witness :
  (launch_target (with_urlbasepath "Desktop" default_block) = "new_window" /\
   urlpath (with_urlbasepath "Desktop" default_block) = "Desktop") /\
  launch_target (with_urlbasepath "terminals/1" default_block) = "iframe".
Proof.
  split.
  - apply (proj1 (new_window_collapses_urlpath
                    (with_urlbasepath "Desktop" default_block))).
    simpl. unfold new_window_interfaces. rewrite !elem_of_cons. tauto.
  - apply (proj2 (new_window_collapses_urlpath
                    (with_urlbasepath "terminals/1" default_block))).
    + reflexivity.
    + simpl. unfold new_window_interfaces. rewrite !elem_of_cons, elem_of_nil.
      intros H. repeat (destruct H as [H|H]; [discriminate H|]). exact H.
Defined.

(** ** What [quote_plus] and [urlencode] write *)

Lemma all_chars_app P s t :
  all_chars P (s +:+ t) = all_chars P s && all_chars P t.
Proof.
  induction s as [|a s IH]; [done|].
  rewrite app_String. cbn [all_chars]. by rewrite IH, andb_assoc.
Qed.

Lemma replace_app a b s t :
  PyStr.replace a b (s +:+ t) = PyStr.replace a b s +:+ PyStr.replace a b t.
Proof.
  induction s as [|c s IH]; [done|].
  rewrite app_String. cbn [PyStr.replace]. by rewrite IH, app_String.
Qed.

Lemma quote_byte_quoted c :
  all_chars quoted_char (Urllib.quote_byte "" c) = true /\
  all_chars quoted_char (PyStr.replace " " "+" (Urllib.quote_byte " " c)) = true.
Proof. each_byte c; split; reflexivity. Qed.

Lemma quote_plus_quoted s : all_chars quoted_char (Urllib.quote_plus s) = true.
Proof.
  unfold Urllib.quote_plus. destruct (PyStr.contains " " s).
  - induction s as [|c s IH]; [done|].
    cbn [Urllib.quote]. rewrite replace_app, all_chars_app, IH.
    by rewrite (proj2 (quote_byte_quoted c)).
  - induction s as [|c s IH]; [done|].
    cbn [Urllib.quote]. rewrite all_chars_app, IH.
    by rewrite (proj1 (quote_byte_quoted c)).
Qed.

Lemma all_chars_weaken (P Q : ascii -> bool) s :
  (forall c, P c = true -> Q c = true) ->
  all_chars P s = true -> all_chars Q s = true.
Proof.
  intros HPQ. induction s as [|a s IH]; [done|].
  cbn [all_chars]. intros [Ha Hs]%andb_true_iff.
  by rewrite (HPQ _ Ha), IH.
Qed.

Lemma item_query_chars k v :
  all_chars query_char (Urllib.quote_plus k +:+ "=" +:+ Urllib.quote_plus v) = true.
Proof.
  assert (Hq : forall s, all_chars query_char (Urllib.quote_plus s) = true).
  { intros s. apply (all_chars_weaken quoted_char); [|apply quote_plus_quoted].
    intros c Hc. unfold query_char. by rewrite Hc. }
  by rewrite !all_chars_app, !Hq.
Qed.

(** X5. Whatever the dict holds, [urlencode] writes only always-safe
    characters, ['%'], ['+'], ['='] and ['&']: every other byte of a key or
    value, spaces and slashes included, leaves as ['+'] or ['%XX']. *)
Theorem urlencode_writes_query_chars (query : odict) :
  all_chars query_char (Urllib.urlencode query) = true.
Proof.
  unfold Urllib.urlencode.
  induction query as [|[k v] d IH]; [done|].
  destruct d as [|kv d].
  - cbn [map PyStr.join fst snd]. apply item_query_chars.
  - change (PyStr.join "&" (map _ ((k, v) :: kv :: d)))
      with ((Urllib.quote_plus k +:+ "=" +:+ Urllib.quote_plus v) +:+ "&" +:+
            PyStr.join "&"
              (map (fun kv => Urllib.quote_plus (fst kv) +:+ "="
                               +:+ Urllib.quote_plus (snd kv)) (kv :: d))).
    rewrite all_chars_app, item_query_chars.
    rewrite all_chars_app, IH. reflexivity.
Qed.

(** X6. [urlencode] loses nothing: the encoded query reads back as the
    dict it was built from, pair by pair and in order, so two dicts with
    the same encoding are the same dict. *)
Theorem urlencode_round_trip (query query' : odict) :
  Urllib.parse_qsl (Urllib.urlencode query) = query /\
  (Urllib.urlencode query = Urllib.urlencode query' -> query = query').
Proof.
  split; [apply parse_qsl_urlencode|].
  intros H. rewrite <- (parse_qsl_urlencode query), H.
  apply parse_qsl_urlencode.
Qed.

Lemma urlencode_round_trip_witness :
  [("repo", "a b")] = [("repo", "a b")].
Proof.
  apply (proj2 (urlencode_round_trip [("repo", "a b")] [("repo", "a b")])).
  reflexivity.
Defined.

Lemma quote_safe_id s :
  all_chars (fun c => PyStr.contains c Urllib.ALWAYS_SAFE) s = true ->
  PyStr.contains " " s = false /\ Urllib.quote "" s = s.
Proof.
  induction s as [|c s IH]; [done|].
  cbn [all_chars]. intros [Hc Hs]%andb_true_iff.
  destruct (IH Hs) as [Hsp Hq]. split.
  - cbn [PyStr.contains]. rewrite Hsp, orb_false_r.
    destruct (Ascii.eqb_spec c " ") as [->|]; [discriminate Hc | done].
  - cbn [Urllib.quote]. unfold Urllib.quote_byte. by rewrite Hc, Hq.
Qed.

(** X7. A value made of letters, digits and [_.-~] only, such as the
    branch [main], goes into the query string unchanged. *)
Theorem quote_plus_keeps_safe_strings (s : string) :
  all_chars (fun c => PyStr.contains c Urllib.ALWAYS_SAFE) s = true ->
  Urllib.quote_plus s = s.
Proof.
  intros [Hsp Hq]%quote_safe_id. unfold Urllib.quote_plus. by rewrite Hsp.
Qed.

Lemma quote_plus_keeps_safe_strings_witness :
  Urllib.quote_plus "release-1.2_rc~x" = "release-1.2_rc~x".
Proof. apply quote_plus_keeps_safe_strings. reflexivity. Defined.

(** ** Dict assignment *)

Lemma odict_get_set_eq k v d : odict_get k (odict_set k v d) = Some v.
Proof.
  induction d as [|[k' v'] d IH]; cbn [odict_set odict_get].
  - by rewrite String.eqb_refl.
  - destruct (String.eqb k' k) eqn:E; cbn [odict_get].
    + by rewrite String.eqb_refl.
    + by rewrite E.
Qed.

Lemma odict_get_set_ne k k' v d :
  k <> k' -> odict_get k' (odict_set k v d) = odict_get k' d.
Proof.
  intros Hne. induction d as [|[k0 v0] d IH]; cbn [odict_set odict_get].
  - by rewrite (proj2 (String.eqb_neq k k') Hne).
  - destruct (String.eqb_spec k0 k) as [->|Hk0]; cbn [odict_get].
    + by rewrite (proj2 (String.eqb_neq k k') Hne).
    + by rewrite IH.
Qed.

Lemma odict_set_keys k v d :
  is_Some (odict_get k d) -> map fst (odict_set k v d) = map fst d.
Proof.
  induction d as [|[k0 v0] d IH]; cbn [odict_set odict_get map fst].
  - by intros [? ?].
  - destruct (String.eqb_spec k0 k) as [->|Hk0]; cbn [map fst]; [done|].
    intros H. by rewrite IH.
Qed.

(** X8. Assigning to a key of the query dict makes that key read the new
    value, leaves every other key's value alone, and, when the key was
    already there, keeps the keys in their order, which is the order
    [urlencode] writes them in. *)
Theorem odict_assignment (k v : string) (d : odict) :
  odict_get k (odict_set k v d) = Some v /\
  (forall k', k <> k' -> odict_get k' (odict_set k v d) = odict_get k' d) /\
  (is_Some (odict_get k d) -> map fst (odict_set k v d) = map fst d).
Proof.
  split; [apply odict_get_set_eq|].
  split; [intros k'; apply odict_get_set_ne | apply odict_set_keys].
Qed.

Lemma odict_assignment_witness :
  odict_get "repo" (odict_set "urlpath" "rstudio"
                      [("repo", "r"); ("urlpath", "u")]) = Some "r" /\
  map fst (odict_set "urlpath" "rstudio" [("repo", "r"); ("urlpath", "u")])
  = ["repo"; "urlpath"].
Proof.
  destruct (odict_assignment "urlpath" "rstudio" [("repo", "r"); ("urlpath", "u")])
    as (_ & Hother & Hkeys).
  split.
  - rewrite (Hother "repo") by discriminate. reflexivity.
  - rewrite Hkeys; [reflexivity | by eexists].
Defined.

(** ** The default of [hub_url] *)

(** X9. The default hub URL needs [settings.LMS_BASE] even when the
    deployment sets [LTI_DEFAULT_JUPYTER_HUB_URL]: without [LMS_BASE] the
    class body raises [AttributeError]; with it, the default is the
    configured hub URL when there is one and [https://hub.<LMS_BASE>]
    otherwise. *)
Theorem hub_url_default_needs_lms_base (settings : gmap string string) :
  (settings !! "LMS_BASE" = None ->
   hub_url_default settings = AttributeError "LMS_BASE") /\
  (forall lms_base, settings !! "LMS_BASE" = Some lms_base ->
     hub_url_default settings =
       AttrOk (match settings !! "LTI_DEFAULT_JUPYTER_HUB_URL" with
               | Some url => url
               | None => "https://hub." +:+ lms_base
               end)).
Proof.
  unfold hub_url_default, settings_attr, getattr_default. split.
  - by intros ->.
  - intros lms_base ->. by destruct (settings !! "LTI_DEFAULT_JUPYTER_HUB_URL").
Qed.

Lemma hub_url_default_needs_lms_base_witness :
  hub_url_default {[ "LTI_DEFAULT_JUPYTER_HUB_URL" := "https://hub.example.org" ]}
  = AttributeError "LMS_BASE" /\
  hub_url_default {[ "LMS_BASE" := "lms.example.org" ]}
  = AttrOk "https://hub.lms.example.org".
Proof.
  split.
  - apply (proj1 (hub_url_default_needs_lms_base
                    {[ "LTI_DEFAULT_JUPYTER_HUB_URL" := "https://hub.example.org" ]})).
    reflexivity.
  - rewrite (proj2 (hub_url_default_needs_lms_base
                      {[ "LMS_BASE" := "lms.example.org" ]}) "lms.example.org")
      by reflexivity.
    reflexivity.
Defined.

(** ** Identity extraction, call by call *)

(** X10. The four identity calls run in source order and the first one
    that raises decides the outcome of the [try] block: what the later
    calls would have answered does not matter. *)
Theorem first_identity_failure_decides (self : JupyterMCXBlock) (w : World) (e : exn) :
  (extract_real_user_data self = Raise e ->
   fst (extract_identity self w) = Raise e) /\
  (forall d, extract_real_user_data self = Ok d ->
     get_lti_1p1_user_id self = Raise e ->
     fst (extract_identity self w) = Raise e) /\
  (forall d uid, extract_real_user_data self = Ok d ->
     get_lti_1p1_user_id self = Ok uid ->
     role self = Raise e ->
     fst (extract_identity self w) = Raise e) /\
  (forall d uid r, extract_real_user_data self = Ok d ->
     get_lti_1p1_user_id self = Ok uid ->
     role self = Ok r ->
     lis_result_sourcedid self = Raise e ->
     fst (extract_identity self w) = Raise e).
Proof.
  unfold extract_identity. repeat split.
  - intros H. rewrite !bind_run. unfold call. by rewrite H.
  - intros d Hd H. rewrite !bind_run. unfold call.
    rewrite Hd, !bind_run. by rewrite H.
  - intros d uid Hd Huid H. rewrite !bind_run. unfold call.
    rewrite Hd, !bind_run, Huid, !bind_run. by rewrite H.
  - intros d uid r Hd Huid Hr H. rewrite !bind_run. unfold call.
    rewrite Hd, !bind_run, Huid, !bind_run, Hr.
    rewrite !bind_run, !load_global_bound by bound_name.
    rewrite !bind_run. by rewrite H.
Qed.

Lemma first_identity_failure_decides_witness :
  fst (extract_identity (with_identity (Raise (LtiError "no user")) default_block)
         fresh_world)
  = Raise (LtiError "no user").
Proof.
  apply (proj1 (first_identity_failure_decides
                  (with_identity (Raise (LtiError "no user")) default_block)
                  fresh_world (LtiError "no user"))).
  reflexivity.
Defined.

(** ** The processor loop, claim by claim *)

Lemma for_each_app {A} (l1 l2 : list A) (f : A -> M unit) (w : World) :
  for_each (l1 ++ l2) f w =
    match for_each l1 f w with
    | (Ok _, w1) => for_each l2 f w1
    | (Raise e, w1) => (Raise e, w1)
    end.
Proof.
  revert w. induction l1 as [|x l1 IH]; intros w; [done|].
  cbn [app for_each]. rewrite !bind_run.
  destruct (f x w) as [[[]|e] w1]; [apply IH | done].
Qed.

Lemma apply_processor_claims (q : Processor) (w : World) claims :
  processor_call q = Ok claims ->
  fst (apply_processor q w) = Ok tt /\
  lti_extra_claims (lti_consumer (snd (apply_processor q w)))
  = default ∅ claims ∪
      (default ∅ (lti_xblock_default_params q) ∪ lti_extra_claims (lti_consumer w)).
Proof.
  intros Hq. unfold apply_processor, try_except.
  rewrite bind_run. cbn [update_consumer].
  rewrite bind_run. unfold call at 1. rewrite Hq. by split.
Qed.

Lemma silent_processors_keep (k : string) (ps : list Processor) (w : World) :
  Forall (fun q => exists claims, processor_call q = Ok claims) ps ->
  Forall (silent_on k) ps ->
  fst (for_each ps apply_processor w) = Ok tt /\
  lti_extra_claims (lti_consumer (snd (for_each ps apply_processor w))) !! k
  = lti_extra_claims (lti_consumer w) !! k.
Proof.
  intros Hret. revert w.
  induction Hret as [|q ps [claims Hq] _ IH]; intros w Hsilent; [done|].
  apply Forall_cons in Hsilent as [[Hdef Hout] Hsilent].
  destruct (apply_processor_claims q w claims Hq) as [Hok Hclaims].
  cbn [for_each]. rewrite bind_run.
  destruct (apply_processor q w) as [[[]|e] w1]; [|discriminate Hok].
  cbn [snd] in Hclaims. destruct (IH w1 Hsilent) as [IHok IHk].
  split; [exact IHok|]. rewrite IHk, Hclaims.
  rewrite lookup_union_r.
  - by rewrite lookup_union_r.
  - destruct claims as [c|]; [by apply Hout | apply lookup_empty].
Qed.

(** X11. When every registered processor returns, a claim a processor
    returned reaches the request builder unless a later processor speaks
    of the same key: neither the processor's own default params nor
    anything set before it can override it. *)
Theorem returned_claim_reaches_builder
    (self : JupyterMCXBlock) (w : World)
    (before after : list Processor) (q : Processor)
    (claims : gmap string string) (k v : string) :
  get_parameter_processors self = before ++ q :: after ->
  Forall (fun p => exists c, processor_call p = Ok c) (before ++ q :: after) ->
  processor_call q = Ok (Some claims) ->
  claims !! k = Some v ->
  Forall (silent_on k) after ->
  fst (apply_processors self w) = Ok tt /\
  lti_extra_claims (lti_consumer (snd (apply_processors self w))) !! k = Some v.
Proof.
  intros Hps Hret Hq Hk Hsilent. unfold apply_processors. rewrite Hps.
  apply Forall_app in Hret as [Hbefore Hrest].
  apply Forall_cons in Hrest as [_ Hafter].
  rewrite for_each_app.
  destruct (for_each_return before w Hbefore) as (w1 & -> & _).
  cbn [for_each]. rewrite bind_run.
  destruct (apply_processor_claims q w1 (Some claims) Hq) as [Hok Hclaims].
  destruct (apply_processor q w1) as [[[]|e] w2]; [|discriminate Hok].
  cbn [snd] in Hclaims.
  destruct (silent_processors_keep k after w2 Hafter Hsilent) as [Hok' Hkeep].
  split; [exact Hok'|]. rewrite Hkeep, Hclaims.
  by apply lookup_union_Some_l.
Qed.

Lemma returned_claim_reaches_builder_witness :
  lti_extra_claims (lti_consumer (snd
    (apply_processors (with_processors [quiet_processor] default_block) fresh_world)))
    !! "custom_cohort_name" = Some "A".
Proof.
  apply (returned_claim_reaches_builder
           (with_processors [quiet_processor] default_block) fresh_world
           [] [] quiet_processor {[ "custom_cohort_name" := "A" ]}
           "custom_cohort_name" "A").
  - reflexivity.
  - apply Forall_cons. split; [by eexists | by apply Forall_nil].
  - reflexivity.
  - apply lookup_singleton_eq.
  - by apply Forall_nil.
Defined.

(** X12. The loop stops at the first processor that raises: the
    processors registered after it are never applied, so the outcome and
    the builder are the same whatever follows it in the list. *)
Theorem loop_stops_at_raising_processor
    (before after after' : list Processor) (p : Processor) (e : exn) (w : World) :
  Forall (fun q => exists c, processor_call q = Ok c) before ->
  processor_call p = Raise e ->
  for_each (before ++ p :: after) apply_processor w
  = for_each (before ++ p :: after') apply_processor w.
Proof.
  intros Hbefore Hp. rewrite !for_each_app.
  destruct (for_each_return before w Hbefore) as (w1 & -> & _).
  cbn [for_each]. rewrite !bind_run.
  by destruct (apply_processor_raises p w1 e Hp) as (w2 & -> & _).
Qed.

Lemma loop_stops_at_raising_processor_witness :
  for_each ([quiet_processor] ++ raising_processor :: [quiet_processor])
    apply_processor fresh_world
  = for_each ([quiet_processor] ++ raising_processor :: [])
      apply_processor fresh_world.
Proof.
  apply (loop_stops_at_raising_processor [quiet_processor] [quiet_processor] []
           raising_processor (KeyError "team") fresh_world).
  - apply Forall_cons. split; [by eexists | by apply Forall_nil].
  - reflexivity.
Defined.

(** ** The whole handler *)

Section HandlerEffects.

Variable urlparse_path : string -> string.
Variable generate_launch_request :
  LtiConsumer1p1 -> string -> result (gmap string string).
Variable render_django_template : string -> gmap string ctx_value -> string.

Local Abbreviation handler :=
  (lti_launch_handler urlparse_path generate_launch_request render_django_template).
Local Abbreviation launch_form :=
  (launch_form_response urlparse_path generate_launch_request render_django_template).

(** What source lines 196-225 leave in the builder, field by field. *)
Lemma populate_consumer_stores self d uid r sid w :
  exists c,
    populate_consumer urlparse_path self (d, uid, r, sid) w
    = (Ok tt, {| lti_consumer := c;
                 log_records := log_records w ++ [("INFO", fetching_log_record self)];
                 tracked_events := tracked_events w |}) /\
    lti_user_data c =
      Some {| ud_user_id := uid;
              ud_roles := r;
              ud_result_sourcedid := sid;
              ud_person_sourcedid :=
                if truthy (user_username d) then user_username d else None;
              ud_person_contact_email_primary := None;
              ud_person_name_full := None |} /\
    lti_context_data c =
      Some (context_id self, course_display_name_with_default self,
            course_display_org_with_default self) /\
    lti_outcome_service_url c =
      (if has_score self then Some (outcome_service_url self)
       else lti_outcome_service_url (lti_consumer w)) /\
    lti_launch_presentation_locale c =
      (if truthy (user_language d) then user_language d
       else lti_launch_presentation_locale (lti_consumer w)) /\
    lti_custom_parameters c = prefixed_custom_parameters urlparse_path self /\
    lti_extra_claims c = lti_extra_claims (lti_consumer w) /\
    lti_launch_url c = lti_launch_url (lti_consumer w).
Proof.
  unfold populate_consumer, read_prefixed_custom_parameters, when.
  destruct (has_score self), (user_language d) as [lang|];
    cbn [truthy]; try destruct (negb (String.eqb lang ""));
    run_steps; rewrite (load_global_bound _ _ logger_bound); run_steps;
    (eexists; split; [reflexivity|]; cbn; repeat split).
Qed.

(** Once source line 225 is passed, only the extra claims of the builder
    can still change. *)
Lemma launch_form_frame self identity w w1 :
  populate_consumer urlparse_path self identity w = (Ok tt, w1) ->
  same_but_extra_claims (lti_consumer w1)
    (lti_consumer (snd (launch_form self identity w))).
Proof.
  intros Hpop. unfold launch_form_response. rewrite bind_run, Hpop.
  rewrite bind_run. unfold apply_processors.
  pose proof (for_each_frame (get_parameter_processors self) w1) as [Hframe _].
  destruct (for_each (get_parameter_processors self) apply_processor w1)
    as [[[]|e] w2]; cbn [snd] in *; [|exact Hframe].
  destruct (generate_launch_request (lti_consumer w2) (resource_link_id self))
    as [p|e] eqn:Hgen.
  - by rewrite (render_launch_form_returns _ _ _ _ _ Hgen).
  - by rewrite (render_launch_form_raises _ _ _ _ _ Hgen).
Qed.

(** The builder at the end of a run whose identity extraction returned. *)
Lemma builder_after_identity self w d uid r sid :
  fst (extract_identity self w) = Ok (d, uid, r, sid) ->
  exists c,
    same_but_extra_claims c (lti_consumer (snd (handler self w))) /\
    lti_user_data c =
      Some {| ud_user_id := uid;
              ud_roles := r;
              ud_result_sourcedid := sid;
              ud_person_sourcedid :=
                if truthy (user_username d) then user_username d else None;
              ud_person_contact_email_primary := None;
              ud_person_name_full := None |} /\
    lti_context_data c =
      Some (context_id self, course_display_name_with_default self,
            course_display_org_with_default self) /\
    lti_outcome_service_url c =
      (if has_score self then Some (outcome_service_url self) else None) /\
    lti_launch_presentation_locale c =
      (if truthy (user_language d) then user_language d else None) /\
    lti_custom_parameters c = prefixed_custom_parameters urlparse_path self /\
    lti_launch_url c = launch_url self.
Proof.
  intros Hid. rewrite (handler_identity_returns _ _ _ self w _ Hid).
  destruct (populate_consumer_stores self d uid r sid (handler_start self w))
    as (c & Hpop & Hud & Hctx & Hout & Hloc & Hcustom & _ & Hurl).
  exists c. split; [exact (launch_form_frame _ _ _ _ Hpop)|].
  repeat split; assumption.
Qed.

(** X13. The error page has no side effect: when identity extraction
    raises [LtiError], the handler answers with an HTML page of status
    400, writes no log record, emits no tracking event and hands nothing
    to the request builder. *)
Theorem error_page_without_side_effects self w msg :
  fst (extract_identity self w) = Raise (LtiError msg) ->
  exists response w',
    handler self w = (Ok response, w') /\
    status response = 400 /\
    content_type response = "text/html" /\
    log_records w' = log_records w /\
    tracked_events w' = tracked_events w /\
    lti_user_data (lti_consumer w') = None /\
    lti_custom_parameters (lti_consumer w') = ∅.
Proof.
  intros Hid. rewrite (handler_identity_raises _ _ _ self w _ Hid).
  cbn [is_LtiError]. eexists _, _. split; [reflexivity|]. by repeat split.
Qed.

(** X14. Only [LtiError] is turned into an error page: any other
    exception raised by identity extraction leaves the handler as it is,
    and nothing has been logged, tracked or rendered by then. *)
Theorem other_identity_errors_propagate self w e :
  fst (extract_identity self w) = Raise e ->
  is_LtiError e = false ->
  exists w',
    handler self w = (Raise e, w') /\
    log_records w' = log_records w /\
    tracked_events w' = tracked_events w.
Proof.
  intros Hid He. rewrite (handler_identity_raises _ _ _ self w _ Hid), He.
  eexists. split; [reflexivity|]. by split.
Qed.

(** X15. A launch that goes through emits exactly one tracking event,
    ['xblock.launch_request'], whose version and roles are read from the
    signed parameters and whose launch URL is the hub URL followed by
    ['/hub/lti/launch']; it writes exactly one log record, the [INFO] one
    of [prefixed_custom_parameters]; and it answers with an HTML page. *)
Theorem launch_emits_one_event self w identity :
  fst (extract_identity self w) = Ok identity ->
  Forall (fun q => exists claims, processor_call q = Ok claims)
         (get_parameter_processors self) ->
  (forall c, lti_user_data c <> None ->
     exists p, generate_launch_request c (resource_link_id self) = Ok p) ->
  exists response w' lti_parameters,
    handler self w = (Ok response, w') /\
    content_type response = "text/html" /\
    body response =
      render_django_template "/templates/html/lti_launch.html"
        (<["lti_parameters" := CtxParams lti_parameters]>
           (_get_context_for_template self)) /\
    log_records w' = log_records w ++ [("INFO", fetching_log_record self)] /\
    tracked_events w' =
      tracked_events w ++
      [("xblock.launch_request",
        {| ev_lti_version := lti_parameters !! "lti_version";
           ev_user_roles := lti_parameters !! "roles";
           ev_launch_url := hub_url self +:+ "/hub/lti/launch" |})].
Proof.
  intros Hid Hps Hsign. destruct identity as [[[d uid] r] sid].
  rewrite (handler_identity_returns _ _ _ self w _ Hid).
  unfold launch_form_response. rewrite bind_run.
  destruct (populate_consumer_stores self d uid r sid (handler_start self w))
    as (c & -> & Hud & _ & _ & _ & _ & _ & Hurl).
  rewrite bind_run. unfold apply_processors.
  match goal with |- context [for_each ?ps apply_processor ?w1] =>
    destruct (for_each_return ps w1 Hps)
      as (w2 & -> & ((Hurl' & Hkeep & _) & Hlog & Hev))
  end.
  cbn in Hkeep, Hurl', Hlog, Hev, Hurl.
  destruct (Hsign (lti_consumer w2)) as [p Hgen]; [congruence|].
  rewrite (render_launch_form_returns _ _ _ _ _ Hgen).
  eexists _, _, p. split; [reflexivity|]. cbn [content_type body].
  repeat split; cbn.
  - by rewrite Hlog.
  - by rewrite Hev, Hurl', Hurl.
Qed.

(** X16. A failure of the signing step leaves the handler as raised, after
    the [INFO] record and before any tracking event: a launch that could
    not be signed is never reported as launched. *)
Theorem signing_failure_propagates self w identity e :
  fst (extract_identity self w) = Ok identity ->
  Forall (fun q => exists claims, processor_call q = Ok claims)
         (get_parameter_processors self) ->
  (forall c, generate_launch_request c (resource_link_id self) = Raise e) ->
  exists w',
    handler self w = (Raise e, w') /\
    log_records w' = log_records w ++ [("INFO", fetching_log_record self)] /\
    tracked_events w' = tracked_events w.
Proof.
  intros Hid Hps Hsign. destruct identity as [[[d uid] r] sid].
  rewrite (handler_identity_returns _ _ _ self w _ Hid).
  unfold launch_form_response. rewrite bind_run.
  destruct (populate_consumer_stores self d uid r sid (handler_start self w))
    as (c & -> & _).
  rewrite bind_run. unfold apply_processors.
  match goal with |- context [for_each ?ps apply_processor ?w1] =>
    destruct (for_each_return ps w1 Hps) as (w2 & -> & (_ & Hlog & Hev))
  end.
  rewrite (render_launch_form_raises _ _ _ _ _ (Hsign (lti_consumer w2))).
  exists w2. split; [reflexivity|]. by rewrite Hlog, Hev.
Qed.

(** X17. Of the learner's identity the request builder receives the user
    id, the role, the result sourcedid and the username, the username
    only when it is a non-empty string; the e-mail address and the full
    name are never handed over, whatever happens later in the run. *)
Theorem builder_never_gets_email_or_name self w d uid r sid :
  fst (extract_identity self w) = Ok (d, uid, r, sid) ->
  exists ud,
    lti_user_data (lti_consumer (snd (handler self w))) = Some ud /\
    ud_user_id ud = uid /\
    ud_result_sourcedid ud = sid /\
    ud_person_contact_email_primary ud = None /\
    ud_person_name_full ud = None /\
    (forall name, user_username d = Some name -> name <> "" ->
       ud_person_sourcedid ud = Some name) /\
    (user_username d = None \/ user_username d = Some "" ->
       ud_person_sourcedid ud = None).
Proof.
  intros Hid.
  destruct (builder_after_identity self w d uid r sid Hid)
    as (c & (_ & Hkeep & _) & Hud & _).
  eexists. split; [by rewrite Hkeep, Hud|]. cbn. repeat split.
  - intros name -> Hname. cbn [truthy].
    by rewrite (proj2 (String.eqb_neq name "") Hname).
  - by intros [-> | ->].
Qed.

(** X18. The outcome-service URL reaches the builder exactly when the
    block has a score, and the presentation locale exactly when the
    learner's language is a non-empty string; the course context always
    does.  This holds whatever happens later in the run. *)
Theorem builder_optional_fields self w d uid r sid :
  fst (extract_identity self w) = Ok (d, uid, r, sid) ->
  let builder := lti_consumer (snd (handler self w)) in
  lti_outcome_service_url builder =
    (if has_score self then Some (outcome_service_url self) else None) /\
  lti_launch_presentation_locale builder =
    match user_language d with
    | Some lang => if String.eqb lang "" then None else Some lang
    | None => None
    end /\
  lti_context_data builder =
    Some (context_id self, course_display_name_with_default self,
          course_display_org_with_default self).
Proof.
  intros Hid builder.
  destruct (builder_after_identity self w d uid r sid Hid)
    as (c & (_ & _ & Hctx' & Hout' & Hloc' & _) & _ & Hctx & Hout & Hloc & _).
  subst builder. rewrite Hout', Hloc', Hctx', Hout, Hloc, Hctx.
  repeat split. destruct (user_language d) as [lang|]; [|done].
  cbn [truthy]. by destruct (String.eqb lang "").
Qed.

(** X19. The builder is aimed at [<hub_url>/hub/lti/launch] and holds the
    block's [prefixed_custom_parameters], so the ['next'] it signs is the
    composed git-pull URL; no parameter processor can change either. *)
Theorem builder_target_and_custom_parameters self w d uid r sid :
  fst (extract_identity self w) = Ok (d, uid, r, sid) ->
  let builder := lti_consumer (snd (handler self w)) in
  lti_launch_url builder = hub_url self +:+ "/hub/lti/launch" /\
  lti_custom_parameters builder = prefixed_custom_parameters urlparse_path self /\
  lti_custom_parameters builder !! "next" = Some (next_url urlparse_path self).
Proof.
  intros Hid builder.
  destruct (builder_after_identity self w d uid r sid Hid)
    as (c & (Hurl' & _ & _ & _ & _ & Hcustom') & _ & _ & _ & _ & Hcustom & Hurl).
  subst builder. rewrite Hurl', Hcustom', Hurl, Hcustom.
  repeat split. unfold prefixed_custom_parameters. apply lookup_insert_eq.
Qed.

(** X20. One run of the handler appends at most one log record and at
    most one tracking event, and leaves every earlier record and event in
    place, whether it returns a page or raises. *)
Theorem handler_appends_at_most_one self w :
  exists records events,
    log_records (snd (lti_launch_handler urlparse_path generate_launch_request
                        render_django_template self w))
    = log_records w ++ records /\
    tracked_events (snd (lti_launch_handler urlparse_path generate_launch_request
                           render_django_template self w))
    = tracked_events w ++ events /\
    (length records <= 1)%nat /\ (length events <= 1)%nat.
Proof.
  destruct (fst (extract_identity self w)) as [[[[d uid] r] sid]|e] eqn:Hid.
  - rewrite (handler_identity_returns _ _ _ self w _ Hid).
    unfold launch_form_response. rewrite bind_run.
    destruct (populate_consumer_stores self d uid r sid (handler_start self w))
      as (c & -> & _).
    rewrite bind_run. unfold apply_processors.
    match goal with |- context [for_each ?ps apply_processor ?w1] =>
      pose proof (for_each_frame ps w1) as (_ & Hlog & Hev);
      destruct (for_each ps apply_processor w1) as [[[]|e] w2]
    end; cbn in Hlog, Hev.
    + destruct (generate_launch_request (lti_consumer w2) (resource_link_id self))
        as [p|e] eqn:Hgen.
      * rewrite (render_launch_form_returns _ _ _ _ _ Hgen). cbn [snd].
        eexists [_], [_]. cbn. rewrite Hlog, Hev. by repeat split; try lia.
      * rewrite (render_launch_form_raises _ _ _ _ _ Hgen). cbn [snd].
        eexists [_], []. rewrite Hlog, Hev, app_nil_r. cbn.
        by repeat split; try lia.
    + eexists [_], []. cbn [snd]. rewrite Hlog, Hev, app_nil_r. cbn.
      by repeat split; try lia.
  - rewrite (handler_identity_raises _ _ _ self w _ Hid).
    exists [], []. rewrite !app_nil_r.
    destruct (is_LtiError e); cbn; by repeat split; try lia.
Qed.

End HandlerEffects.

(** ** What a run reads of the world *)














Section HandlerReads.

Variable urlparse_path : string -> string.
Variable generate_launch_request :
  LtiConsumer1p1 -> string -> result (gmap string string).
Variable render_django_template : string -> gmap string ctx_value -> string.

Local Abbreviation handler :=
  (lti_launch_handler urlparse_path generate_launch_request render_django_template).



End HandlerReads.

(** ** The effects on sample runs *)

Lemma error_page_without_side_effects_witness :
  exists response w',
    lti_launch_handler sample_urlparse_path sample_generate_launch_request
      sample_render_django_template
      (with_identity (Raise (LtiError "no user")) default_block) fresh_world
    = (Ok response, w') /\
    status response = 400 /\
    content_type response = "text/html" /\
    log_records w' = [] /\
    tracked_events w' = [] /\
    lti_user_data (lti_consumer w') = None /\
    lti_custom_parameters (lti_consumer w') = ∅.
Proof.
  apply (error_page_without_side_effects sample_urlparse_path
           sample_generate_launch_request sample_render_django_template
           (with_identity (Raise (LtiError "no user")) default_block)
           fresh_world "no user").
  reflexivity.
Defined.

Lemma other_identity_errors_propagate_witness :
  exists w',
    lti_launch_handler sample_urlparse_path sample_generate_launch_request
      sample_render_django_template
      (with_identity (Raise (KeyError "user")) default_block) fresh_world
    = (Raise (KeyError "user"), w') /\
    log_records w' = [] /\
    tracked_events w' = [].
Proof.
  apply (other_identity_errors_propagate sample_urlparse_path
           sample_generate_launch_request sample_render_django_template
           (with_identity (Raise (KeyError "user")) default_block)
           fresh_world (KeyError "user")); reflexivity.
Defined.

Lemma launch_emits_one_event_witness :
  exists response w' lti_parameters,
    lti_launch_handler sample_urlparse_path sample_generate_launch_request
      sample_render_django_template
      (with_processors [quiet_processor] default_block) fresh_world
    = (Ok response, w') /\
    content_type response = "text/html" /\
    body response =
      sample_render_django_template "/templates/html/lti_launch.html"
        (<["lti_parameters" := CtxParams lti_parameters]> ∅) /\
    log_records w' =
      [] ++ [("INFO", fetching_log_record
                        (with_processors [quiet_processor] default_block))] /\
    tracked_events w' =
      [] ++
      [("xblock.launch_request",
        {| ev_lti_version := lti_parameters !! "lti_version";
           ev_user_roles := lti_parameters !! "roles";
           ev_launch_url := "https://hub.example.org/jupyter" +:+ "/hub/lti/launch" |})].
Proof.
  apply (launch_emits_one_event sample_urlparse_path
           sample_generate_launch_request sample_render_django_template
           (with_processors [quiet_processor] default_block) fresh_world
           ({| user_username := Some "alice"; user_language := Some "fr" |},
            "5f3a", "Administrator", "course:link:5f3a")).
  - reflexivity.
  - apply Forall_cons. split; [by eexists | by apply Forall_nil].
  - intros c. apply sample_builder_signs.
Defined.

Lemma signing_failure_propagates_witness :
  exists w',
    lti_launch_handler sample_urlparse_path failing_generate_launch_request
      sample_render_django_template default_block fresh_world
    = (Raise (ValueError "OAuth signature could not be computed"), w') /\
    log_records w' = [] ++ [("INFO", fetching_log_record default_block)] /\
    tracked_events w' = [].
Proof.
  apply (signing_failure_propagates sample_urlparse_path
           failing_generate_launch_request sample_render_django_template
           default_block fresh_world
           ({| user_username := Some "alice"; user_language := Some "fr" |},
            "5f3a", "Administrator", "course:link:5f3a")).
  - reflexivity.
  - by apply Forall_nil.
  - reflexivity.
Defined.

Lemma builder_never_gets_email_or_name_witness :
  exists ud,
    lti_user_data (lti_consumer (snd
      (lti_launch_handler sample_urlparse_path sample_generate_launch_request
         sample_render_django_template default_block fresh_world))) = Some ud /\
    ud_person_contact_email_primary ud = None /\
    ud_person_name_full ud = None /\
    ud_person_sourcedid ud = Some "alice".
Proof.
  destruct (builder_never_gets_email_or_name sample_urlparse_path
              sample_generate_launch_request sample_render_django_template
              default_block fresh_world
              {| user_username := Some "alice"; user_language := Some "fr" |}
              "5f3a" "Administrator" "course:link:5f3a" eq_refl)
    as (ud & Hud & _ & _ & Hemail & Hname & Huser & _).
  exists ud. split; [exact Hud|]. split; [exact Hemail|]. split; [exact Hname|].
  apply Huser; [reflexivity | discriminate].
Defined.

Lemma builder_optional_fields_witness :
  lti_outcome_service_url (lti_consumer (snd
    (lti_launch_handler sample_urlparse_path sample_generate_launch_request
       sample_render_django_template default_block fresh_world))) = None /\
  lti_launch_presentation_locale (lti_consumer (snd
    (lti_launch_handler sample_urlparse_path sample_generate_launch_request
       sample_render_django_template default_block fresh_world))) = Some "fr".
Proof.
  destruct (builder_optional_fields sample_urlparse_path
              sample_generate_launch_request sample_render_django_template
              default_block fresh_world
              {| user_username := Some "alice"; user_language := Some "fr" |}
              "5f3a" "Administrator" "course:link:5f3a" eq_refl)
    as (Hout & Hloc & _).
  split; [exact Hout | exact Hloc].
Defined.

Lemma builder_target_and_custom_parameters_witness :
  lti_launch_url (lti_consumer (snd
    (lti_launch_handler sample_urlparse_path sample_generate_launch_request
       sample_render_django_template default_block fresh_world)))
  = "https://hub.example.org/jupyter/hub/lti/launch".
Proof.
  destruct (builder_target_and_custom_parameters sample_urlparse_path
              sample_generate_launch_request sample_render_django_template
              default_block fresh_world
              {| user_username := Some "alice"; user_language := Some "fr" |}
              "5f3a" "Administrator" "course:link:5f3a" eq_refl)
    as (Hurl & _).
  exact Hurl.
Defined.

(** ** The repository segment of the redirect path *)

Lemma last_char_contains c s : last_char s = Some c -> PyStr.contains c s = true.
Proof.
  induction s as [|a s IH]; [done|].
  cbn [last_char PyStr.contains]. destruct s as [|b s].
  - intros [= ->]. by rewrite Ascii.eqb_refl.
  - intros H. rewrite (IH H). apply orb_true_r.
Qed.

Lemma basename_trailing_slash p : last_char p = Some "/"%char -> basename p = "".
Proof.
  induction p as [|a p IH]; [done|].
  rewrite basename_String. destruct p as [|b p].
  - cbn. by intros [= ->].
  - intros H. change (last_char (String b p) = Some "/"%char) in H.
    rewrite (last_char_contains _ _ H). by apply IH.
Qed.

(** X22. For an interface that opens a document, the repository segment
    of the redirect path is the text after the last ['/'] of the
    repository URL, taken as it is, a [.git] suffix included; a
    repository URL that ends in ['/'] therefore gives an empty segment and
    a path with two slashes in a row. *)
Theorem urlpath_repository_segment (self : JupyterMCXBlock) :
  urlbasepath self ∉ no_document_interfaces ->
  (forall dir name, nb_git_repo self = dir +:+ "/" +:+ name ->
     PyStr.contains "/" name = false ->
     urlpath self = urlbasepath self +:+ "/" +:+ name +:+ "/" +:+ nb_git_file self) /\
  (last_char (nb_git_repo self) = Some "/"%char ->
   urlpath self = urlbasepath self +:+ "//" +:+ nb_git_file self).
Proof.
  intros Hout. rewrite (urlpath_full self Hout). split.
  - intros dir name -> Hname. by rewrite basename_after_slash.
  - intros Hlast. by rewrite basename_trailing_slash.
Qed.

Lemma urlpath_repository_segment_witness :
  urlpath default_block =
    "lab/tree" +:+ "/" +:+ "jupytermc-xblock.git" +:+ "/"
      +:+ "static/notebooks/hello.ipynb".
Proof.
  apply (proj1 (urlpath_repository_segment default_block
                  ltac:(simpl; unfold no_document_interfaces;
                        rewrite !elem_of_cons, elem_of_nil;
                        intros H; repeat (destruct H as [H|H]; [discriminate H|]);
                        exact H))
           "https://github.com/calculquebec" "jupytermc-xblock.git");
    reflexivity.
Defined.
